(** * Patient Data API: the request handlers of [app.py] and their contract

    The service keeps the document read from [dummy_patient_data.json] in
    the module-level variable [patient_data] and answers every request by
    reading it.  The handlers are embedded below as functions of that
    value; Python values are the ones [json.load] can produce, and every
    operation that Python can refuse on such a value ([.get] on a value
    that is not a dict, [len] of a number, ...) raises here as well. *)

From Stdlib Require Import ZArith String Ascii List Bool Lia PrimFloat.
From stdpp Require Import base list.
Import ListNotations.
Open Scope string_scope.

(** ** Python values *)

(** What [json.load] returns: [None], [bool], [int], [float], [str], [list]
    and [dict] with [str] keys.  A dict is kept as its list of items in
    insertion order.  A [str] is a sequence of characters below 256. *)
#[local] Set Warnings "-register-all".
Inductive value : Type :=
| VNone
| VBool (b : bool)
| VInt (n : Z)
| VFloat (f : float)
| VStr (s : string)
| VList (l : list value)
| VDict (d : list (string * value)).

(** The exceptions the handlers can end with. *)
Inductive exn : Type :=
| AttributeError
| TypeError
| HTTPException (status_code : Z) (detail : string).

Inductive result (A : Type) : Type :=
| Ok (a : A)
| Raise (e : exn).
Arguments Ok {A} a.
Arguments Raise {A} e.

Definition bind {A B : Type} (r : result A) (k : A -> result B) : result B :=
  match r with
  | Ok a => k a
  | Raise e => Raise e
  end.

Declare Scope py_scope.
Delimit Scope py_scope with py.
Notation "x <- r ;; k" := (bind r (fun x => k))
  (at level 100, r at next level, right associativity) : py_scope.
Open Scope py_scope.

(** ** Built-in operations *)

Fixpoint dict_lookup (key : string) (d : list (string * value)) : option value :=
  match d with
  | [] => None
  | (k, v) :: d' => if String.eqb k key then Some v else dict_lookup key d'
  end.

(** [o.get(key, default)]: only a dict has the method. *)
Definition py_get (o : value) (key : string) (default : value) : result value :=
  match o with
  | VDict d =>
      match dict_lookup key d with
      | Some v => Ok v
      | None => Ok default
      end
  | _ => Raise AttributeError
  end.

(** [for x in o]: a list yields its elements, a dict its keys, a str its
    characters; nothing else can be iterated. *)
Definition py_iter (o : value) : result (list value) :=
  match o with
  | VList l => Ok l
  | VDict d => Ok (map (fun kv => VStr (fst kv)) d)
  | VStr s => Ok (map (fun c => VStr (String c "")) (list_ascii_of_string s))
  | _ => Raise TypeError
  end.

(** [len(o)] *)
Definition py_len (o : value) : result Z :=
  match o with
  | VList l => Ok (Z.of_nat (length l))
  | VDict d => Ok (Z.of_nat (length d))
  | VStr s => Ok (Z.of_nat (String.length s))
  | _ => Raise TypeError
  end.

(** Truth value of an object, as [if o:] and [not o] test it. *)
Definition truthy (o : value) : bool :=
  match o with
  | VNone => false
  | VBool b => b
  | VInt n => negb (Z.eqb n 0)
  | VFloat f => negb (PrimFloat.eqb f 0%float)
  | VStr s => negb (String.eqb s "")
  | VList l => match l with [] => false | _ :: _ => true end
  | VDict d => match d with [] => false | _ :: _ => true end
  end.

(** [o == s] for a str [s]: objects of another type are never equal to it. *)
Definition py_eq_str (o : value) (s : string) : bool :=
  match o with
  | VStr t => String.eqb t s
  | _ => false
  end.

(** [c.lower()] on one character: A-Z and the Latin-1 capitals. *)
Definition lower_char (c : ascii) : ascii :=
  let n := nat_of_ascii c in
  if (Nat.leb 65 n && Nat.leb n 90)
     || (Nat.leb 192 n && Nat.leb n 222 && negb (Nat.eqb n 215))
  then ascii_of_nat (n + 32)
  else c.

Fixpoint lower (s : string) : string :=
  match s with
  | EmptyString => EmptyString
  | String c s' => String (lower_char c) (lower s')
  end.

(** [o.lower()]: only a str has the method. *)
Definition py_lower (o : value) : result string :=
  match o with
  | VStr s => Ok (lower s)
  | _ => Raise AttributeError
  end.

(** [needle in hay] for two strs: [needle] occurs as a contiguous run. *)
Fixpoint str_in (needle hay : string) : bool :=
  String.prefix needle hay ||
  match hay with
  | EmptyString => false
  | String _ hay' => str_in needle hay'
  end.

(** Truth value of an [Optional[str]] query parameter: [None] and the empty
    string are both false. *)
Definition given (q : option string) : option string :=
  match q with
  | Some s => if String.eqb s "" then None else Some s
  | None => None
  end.

(** [[x for x in items if cond(x)]]: the condition is evaluated on each item
    in turn and the first exception ends the comprehension. *)
Fixpoint comprehension (cond : value -> result bool) (items : list value)
  : result (list value) :=
  match items with
  | [] => Ok []
  | x :: rest =>
      b <- cond x ;;
      kept <- comprehension cond rest ;;
      Ok (if b then x :: kept else kept)
  end.

(** ** Loading the data file

    [open] and [json.load] are library calls; each either returns or raises.
    The [try] block catches two exceptions and lets every other one end the
    process. *)
Inductive load_exn : Type :=
| FileNotFoundError
| JSONDecodeError (msg : string)
| OtherError (name : string).

Inductive outcome (A : Type) : Type :=
| Returns (a : A)
| Throws (e : load_exn).
Arguments Returns {A} a.
Arguments Throws {A} e.

Definition DATA_PATH : string := "dummy_patient_data.json".

Section Loader.
(** [json.load] on the text of the file. *)
Variable json_load : string -> outcome value.

(** The module-level [try]: the value bound to [patient_data] and the
    lines printed, or the exception that escapes. *)
Definition load_patient_data (opened : outcome string)
  : outcome (value * list string) :=
  let attempt :=
    match opened with
    | Returns f => json_load f
    | Throws e => Throws e
    end in
  match attempt with
  | Returns v => Returns (v, [])
  | Throws FileNotFoundError =>
      Returns (VDict [("patients", VList [])],
               ["Error: Could not find " ++ DATA_PATH])
  | Throws (JSONDecodeError e) =>
      Returns (VDict [("patients", VList [])],
               ["Error: Invalid JSON in " ++ DATA_PATH ++ ": " ++ e])
  | Throws e => Throws e
  end.
End Loader.

(** ** The handlers *)

Section Service.
(** The module-level [patient_data]; no handler assigns to it. *)
Variable patient_data : value.

Fixpoint find_loop (patient_id : string) (patients : list value) : result value :=
  match patients with
  | [] => Ok VNone
  | patient :: rest =>
      pid <- py_get patient "patientId" VNone ;;
      if py_eq_str pid patient_id then Ok patient
      else find_loop patient_id rest
  end.

Definition find_patient_by_id (patient_id : string) : result value :=
  patients <- py_get patient_data "patients" (VList []) ;;
  items <- py_iter patients ;;
  find_loop patient_id items.

Definition get_all_patients : result value :=
  patients <- py_get patient_data "patients" (VList []) ;;
  count <- py_len patients ;;
  patients' <- py_get patient_data "patients" (VList []) ;;
  Ok (VDict [("success", VBool true);
             ("count", VInt count);
             ("patients", patients')]).

Definition get_patient_by_id (patient_id : string) : result value :=
  patient <- find_patient_by_id patient_id ;;
  if negb (truthy patient) then
    Raise (HTTPException 404 ("Patient with ID " ++ patient_id ++ " not found"))
  else
    Ok (VDict [("success", VBool true); ("patient", patient)]).

Definition search_patients_by_name (firstName lastName : option string)
  : result value :=
  results <- py_get patient_data "patients" (VList []) ;;
  results <-
    match given firstName with
    | Some firstName =>
        items <- py_iter results ;;
        kept <- comprehension (fun p =>
                  info <- py_get p "personalInformation" (VDict []) ;;
                  name <- py_get info "firstName" (VStr "") ;;
                  name <- py_lower name ;;
                  Ok (str_in (lower firstName) name)) items ;;
        Ok (VList kept)
    | None => Ok results
    end ;;
  results <-
    match given lastName with
    | Some lastName =>
        items <- py_iter results ;;
        kept <- comprehension (fun p =>
                  info <- py_get p "personalInformation" (VDict []) ;;
                  name <- py_get info "lastName" (VStr "") ;;
                  name <- py_lower name ;;
                  Ok (str_in (lower lastName) name)) items ;;
        Ok (VList kept)
    | None => Ok results
    end ;;
  count <- py_len results ;;
  Ok (VDict [("success", VBool true);
             ("count", VInt count);
             ("patients", results)]).

Definition appointment_types : list string := ["upcoming"; "recent"; "past"].

Definition get_patient_appointments (patient_id : string) (type : option string)
  : result value :=
  patient <- find_patient_by_id patient_id ;;
  if negb (truthy patient) then
    Raise (HTTPException 404 ("Patient with ID " ++ patient_id ++ " not found"))
  else
    appointments <- py_get patient "appointments" (VDict []) ;;
    match given type with
    | Some type =>
        if existsb (String.eqb type) appointment_types then
          bucket <- py_get appointments type (VList []) ;;
          Ok (VDict [("success", VBool true);
                     ("type", VStr type);
                     ("appointments", bucket)])
        else
          Ok (VDict [("success", VBool true); ("appointments", appointments)])
    | None =>
        Ok (VDict [("success", VBool true); ("appointments", appointments)])
    end.

Definition get_patient_test_results (patient_id : string) (testType : option string)
  : result value :=
  patient <- find_patient_by_id patient_id ;;
  if negb (truthy patient) then
    Raise (HTTPException 404 ("Patient with ID " ++ patient_id ++ " not found"))
  else
    results <- py_get patient "testResults" (VList []) ;;
    results <-
      match given testType with
      | Some testType =>
          items <- py_iter results ;;
          kept <- comprehension (fun test =>
                    t <- py_get test "testType" VNone ;;
                    Ok (py_eq_str t testType)) items ;;
          Ok (VList kept)
      | None => Ok results
      end ;;
    count <- py_len results ;;
    Ok (VDict [("success", VBool true);
               ("count", VInt count);
               ("testResults", results)]).

Definition get_patient_medical_history (patient_id : string) : result value :=
  patient <- find_patient_by_id patient_id ;;
  if negb (truthy patient) then
    Raise (HTTPException 404 ("Patient with ID " ++ patient_id ++ " not found"))
  else
    medicalHistory <- py_get patient "medicalHistory" (VDict []) ;;
    Ok (VDict [("success", VBool true); ("medicalHistory", medicalHistory)]).

Definition get_patient_insurance (patient_id : string) : result value :=
  patient <- find_patient_by_id patient_id ;;
  if negb (truthy patient) then
    Raise (HTTPException 404 ("Patient with ID " ++ patient_id ++ " not found"))
  else
    insurance <- py_get patient "insurance" (VDict []) ;;
    Ok (VDict [("success", VBool true); ("insurance", insurance)]).

Definition get_patient_care_providers (patient_id : string) : result value :=
  patient <- find_patient_by_id patient_id ;;
  if negb (truthy patient) then
    Raise (HTTPException 404 ("Patient with ID " ++ patient_id ++ " not found"))
  else
    careProviders <- py_get patient "careProviders" (VList []) ;;
    Ok (VDict [("success", VBool true); ("careProviders", careProviders)]).

Definition get_patient_procedures (patient_id : string) : result value :=
  patient <- find_patient_by_id patient_id ;;
  if negb (truthy patient) then
    Raise (HTTPException 404 ("Patient with ID " ++ patient_id ++ " not found"))
  else
    procedures <- py_get patient "procedures" (VList []) ;;
    Ok (VDict [("success", VBool true); ("procedures", procedures)]).
End Service.

(** Modelled from the spec: the framework's rendering of a handler's outcome,
    which is not part of [app.py].  A returned dict is the body of a 200
    response; a raised [HTTPException] becomes a response with its status
    code and the body [{detail: ...}]; any other exception is a 500. *)
Definition http_response (r : result value) : Z * value :=
  match r with
  | Ok body => (200%Z, body)
  | Raise (HTTPException status_code detail) =>
      (status_code, VDict [("detail", VStr detail)])
  | Raise _ => (500%Z, VStr "Internal Server Error")
  end.

(** ** The document's data model

    The specification takes the document to be a dict whose [patients] entry
    is a sequence of records.  [dataset] reads that sequence and answers
    [None] for a document of another shape. *)
Open Scope list_scope.

Definition is_dict (v : value) : bool :=
  match v with
  | VDict _ => true
  | _ => false
  end.

Definition dataset (patient_data : value) : option (list value) :=
  match patient_data with
  | VDict d =>
      match dict_lookup "patients" d with
      | None => Some []
      | Some (VList l) => if forallb is_dict l then Some l else None
      | Some _ => None
      end
  | _ => None
  end.

(** A field of a record, when the record has it. *)
Definition field (key : string) (p : value) : option value :=
  match p with
  | VDict d => dict_lookup key d
  | _ => None
  end.

(** The record carries the str [patient_id] as its [patientId]. *)
Definition has_id (patient_id : string) (p : value) : bool :=
  match field "patientId" p with
  | Some (VStr s) => String.eqb s patient_id
  | _ => false
  end.

(** [p] is the first record of [ps], in order, that carries [patient_id]. *)
Definition first_with_id (patient_id : string) (ps : list value) (p : value) : Prop :=
  exists before after,
    ps = before ++ p :: after /\
    forallb (fun q => negb (has_id patient_id q)) before = true /\
    has_id patient_id p = true.

(** No two records of [ps] carry the same str as [patientId]. *)
Definition unique_ids (ps : list value) : Prop :=
  forall patient_id before p middle q after,
    ps = before ++ p :: middle ++ q :: after ->
    has_id patient_id p = true ->
    has_id patient_id q = false.

(** ** Sample documents *)

Definition anna : value :=
  VDict [("patientId", VStr "P1");
         ("personalInformation",
          VDict [("firstName", VStr "Anna"); ("lastName", VStr "Lee")])].

Definition diana : value :=
  VDict [("patientId", VStr "P2");
         ("personalInformation",
          VDict [("firstName", VStr "Diana"); ("lastName", VStr "Prince")]);
         ("appointments",
          VDict [("upcoming", VList [VDict [("date", VStr "2026-01-10")]]);
                 ("past", VList [])]);
         ("testResults",
          VList [VDict [("testType", VStr "Laboratory"); ("name", VStr "CBC")];
                 VDict [("testType", VStr "Radiology"); ("name", VStr "X-ray")];
                 VDict [("testType", VStr "Laboratory"); ("name", VStr "Lipids")]])].

(** A second record that reuses the identifier of [anna]. *)
Definition anna_again : value :=
  VDict [("patientId", VStr "P1");
         ("personalInformation",
          VDict [("firstName", VStr "Annabel"); ("lastName", VStr "Ray")])].

Definition clinic : value := VDict [("patients", VList [anna; diana])].

Definition clinic_dup : value := VDict [("patients", VList [anna; diana; anna_again])].

(** ** Readings of a record and of a response

    What the specification calls the names, the appointments and the test
    results of a record, and the search in its own words. *)

(** The name a record shows under [key] of its [personalInformation]: the
    empty string when either is absent, nothing when one of them has another
    type than the data model gives it. *)
Definition name_of (key : string) (p : value) : option string :=
  match field "personalInformation" p with
  | None => Some ""%string
  | Some (VDict info) =>
      match dict_lookup key info with
      | None => Some ""%string
      | Some (VStr s) => Some s
      | Some _ => None
      end
  | Some _ => None
  end.

Definition name (key : string) (p : value) : string :=
  match name_of key p with
  | Some s => s
  | None => ""%string
  end.

Definition names_ok (p : value) : bool :=
  match name_of "firstName" p, name_of "lastName" p with
  | Some _, Some _ => true
  | _, _ => false
  end.

(** The search as the specification words it: a filter that is absent
    restricts nothing, one that is present asks for a case-insensitive
    substring, and the two are joined by AND. *)
Definition contains_ci (query : option string) (s : string) : bool :=
  match query with
  | None => true
  | Some q => str_in (lower q) (lower s)
  end.

Definition SearchByName_spec (ps : list value) (firstName lastName : option string)
  : list value :=
  List.filter (fun p => contains_ci firstName (name "firstName" p)
                        && contains_ci lastName (name "lastName" p)) ps.

(** The [patients] list of a response. *)
Definition patients_returned (r : result value) : option (list value) :=
  match r with
  | Ok body =>
      match field "patients" body with
      | Some (VList l) => Some l
      | _ => None
      end
  | Raise _ => None
  end.

(** The [appointments] of a record, the empty mapping when it has none. *)
Definition appointments_of (p : value) : value :=
  match field "appointments" p with
  | Some a => a
  | None => VDict []
  end.

(** The [testResults] of a record as the data model has them: a sequence of
    entries, empty when the record has none. *)
Definition test_results (p : value) : option (list value) :=
  match field "testResults" p with
  | None => Some []
  | Some (VList l) => if forallb is_dict l then Some l else None
  | Some _ => None
  end.

(** The entry carries the str [t] as its [testType], letter for letter. *)
Definition has_test_type (t : string) (test : value) : bool :=
  match field "testType" test with
  | Some (VStr s) => String.eqb s t
  | _ => false
  end.

(** ** The accessors as one family *)

(** The six accessors that take an identifier, with their query parameter. *)
Inductive accessor : Type :=
| Appointments (type : option string)
| TestResults (testType : option string)
| MedicalHistory
| Insurance
| CareProviders
| Procedures.

Definition run (patient_data : value) (patient_id : string) (a : accessor)
  : result value :=
  match a with
  | Appointments type => get_patient_appointments patient_data patient_id type
  | TestResults testType => get_patient_test_results patient_data patient_id testType
  | MedicalHistory => get_patient_medical_history patient_data patient_id
  | Insurance => get_patient_insurance patient_data patient_id
  | CareProviders => get_patient_care_providers patient_data patient_id
  | Procedures => get_patient_procedures patient_data patient_id
  end.

(** The computation raises nothing that the framework would answer with an
    HTTP error of the handler's choosing. *)
Definition no_http {A : Type} (r : result A) : Prop :=
  forall status_code detail, r <> Raise (HTTPException status_code detail).

(** [q] occurs in [s] as a contiguous run of characters. *)
Definition occurs_in (q s : string) : Prop :=
  exists before after, s = (before ++ q ++ after)%string.

(** * Properties *)

(** ** The model at work *)

Example lower_Anna : lower "Anna" = "anna".
Proof. reflexivity. Qed.

Example an_in_Diana : str_in (lower "an") (lower "Diana") = true.
Proof. reflexivity. Qed.

Example scenario_P1 :
  get_patient_by_id (VDict [("patients", VList [anna])]) "P1"
  = Ok (VDict [("success", VBool true); ("patient", anna)]).
Proof. reflexivity. Qed.

Example scenario_P2 :
  http_response (get_patient_by_id (VDict [("patients", VList [anna])]) "P2")
  = (404%Z, VDict [("detail", VStr "Patient with ID P2 not found")]).
Proof. reflexivity. Qed.

Example scenario_search :
  search_patients_by_name (VDict [("patients", VList [anna])]) (Some "ann") None
  = Ok (VDict [("success", VBool true); ("count", VInt 1); ("patients", VList [anna])]).
Proof. reflexivity. Qed.

Example search_an :
  search_patients_by_name clinic (Some "an") None
  = Ok (VDict [("success", VBool true); ("count", VInt 2);
               ("patients", VList [anna; diana])]).
Proof. reflexivity. Qed.

(** A document whose [patients] holds something that is not a record makes
    the scan raise. *)
Example scan_non_record :
  get_patient_by_id (VDict [("patients", VList [VInt 7])]) "P1" = Raise AttributeError.
Proof. reflexivity. Qed.

(** ** The scan *)

Lemma dataset_get patient_data ps :
  dataset patient_data = Some ps ->
  py_get patient_data "patients" (VList []) = Ok (VList ps) /\
  forallb is_dict ps = true.
Proof.
  unfold dataset, py_get. destruct patient_data as [| | | | | |d]; try discriminate.
  destruct (dict_lookup "patients" d) as [v|].
  - destruct v as [| | | | |l|]; try discriminate.
    destruct (forallb is_dict l) eqn:E; [|discriminate].
    intros H. injection H as <-. auto.
  - intros H. injection H as <-. auto.
Qed.

Lemma find_patient_by_id_dataset patient_data ps patient_id :
  dataset patient_data = Some ps ->
  find_patient_by_id patient_data patient_id = find_loop patient_id ps.
Proof.
  intros H. apply dataset_get in H as [H _].
  unfold find_patient_by_id. rewrite H. reflexivity.
Qed.

(** One turn of the loop on a record. *)
Lemma find_loop_cons patient_id p rest :
  is_dict p = true ->
  find_loop patient_id (p :: rest)
  = if has_id patient_id p then Ok p else find_loop patient_id rest.
Proof.
  destruct p as [| | | | | |d]; try discriminate. intros _.
  unfold has_id, field. simpl.
  destruct (dict_lookup "patientId" d) as [v|]; simpl; [|reflexivity].
  destruct v; reflexivity.
Qed.

Lemma find_loop_none patient_id ps :
  forallb is_dict ps = true ->
  forallb (fun q => negb (has_id patient_id q)) ps = true ->
  find_loop patient_id ps = Ok VNone.
Proof.
  induction ps as [|p ps IH]; [reflexivity|].
  cbn [forallb]. intros [Hp Hps]%andb_prop [Hn Hns]%andb_prop.
  rewrite find_loop_cons by exact Hp.
  apply negb_true_iff in Hn. rewrite Hn. auto.
Qed.

Lemma find_loop_first patient_id ps p :
  forallb is_dict ps = true ->
  first_with_id patient_id ps p ->
  find_loop patient_id ps = Ok p.
Proof.
  intros Hd (before & after & -> & Hb & Hp).
  induction before as [|q before IH].
  - simpl in Hd |- *. apply andb_prop in Hd as [Hd _].
    change (find_loop patient_id (p :: after) = Ok p).
    rewrite find_loop_cons by exact Hd. rewrite Hp. reflexivity.
  - cbn [forallb app] in Hd, Hb |- *.
    apply andb_prop in Hd as [Hq Hd]. apply andb_prop in Hb as [Hn Hb].
    rewrite find_loop_cons by exact Hq.
    apply negb_true_iff in Hn. rewrite Hn. auto.
Qed.

(** The scan of a sequence of records ends in one of two ways. *)
Lemma find_loop_cases patient_id ps :
  forallb is_dict ps = true ->
  (find_loop patient_id ps = Ok VNone /\
   forallb (fun q => negb (has_id patient_id q)) ps = true)
  \/ (exists p, find_loop patient_id ps = Ok p /\ first_with_id patient_id ps p).
Proof.
  induction ps as [|q ps IH]; [left; split; reflexivity|].
  cbn [forallb]. intros [Hq Hps]%andb_prop.
  rewrite find_loop_cons by exact Hq.
  destruct (has_id patient_id q) eqn:E.
  - right. exists q. split; [reflexivity|].
    exists [], ps. repeat split; assumption.
  - destruct (IH Hps) as [[H1 H2]|(p & H1 & before & after & -> & Hb & Hp)].
    + left. split; [exact H1|]. simpl. rewrite H2. reflexivity.
    + right. exists p. split; [exact H1|].
      exists (q :: before), after. repeat split; [|exact Hp].
      cbn [forallb]. rewrite E, Hb. reflexivity.
Qed.

(** A record that carries an identifier is a non-empty dict. *)
Lemma has_id_truthy patient_id p : has_id patient_id p = true -> truthy p = true.
Proof.
  unfold has_id, field. destruct p as [| | | | | |d]; try discriminate.
  destruct d; [discriminate|reflexivity].
Qed.

Lemma first_with_id_In patient_id ps p : first_with_id patient_id ps p -> In p ps.
Proof.
  intros (before & after & -> & _ & _). apply in_or_app. right. left. reflexivity.
Qed.

(** With pairwise distinct identifiers every record is the first with its
    own. *)
Lemma unique_ids_first patient_id ps p :
  unique_ids ps -> In p ps -> has_id patient_id p = true ->
  first_with_id patient_id ps p.
Proof.
  intros Hu Hin Hp. apply in_split in Hin as (before & after & ->).
  exists before, after. repeat split; [|exact Hp].
  apply forallb_forall. intros q Hq. apply negb_true_iff.
  apply in_split in Hq as (l1 & l2 & ->).
  destruct (has_id patient_id q) eqn:E; [|reflexivity].
  rewrite (Hu patient_id l1 q l2 p after) in Hp; [discriminate| |exact E].
  rewrite <- app_assoc. reflexivity.
Qed.

Lemma has_id_field patient_id p :
  has_id patient_id p = true <-> field "patientId" p = Some (VStr patient_id).
Proof.
  unfold has_id. split.
  - destruct (field "patientId" p) as [[| | | |s| |]|]; try discriminate.
    intros ->%String.eqb_eq. reflexivity.
  - intros ->. apply String.eqb_refl.
Qed.

Lemma no_id_forallb patient_id ps :
  (forall p, In p ps -> field "patientId" p <> Some (VStr patient_id)) ->
  forallb (fun q => negb (has_id patient_id q)) ps = true.
Proof.
  intros H. apply forallb_forall. intros q Hq. apply negb_true_iff.
  destruct (has_id patient_id q) eqn:E; [|reflexivity].
  apply has_id_field in E. destruct (H q Hq E).
Qed.

(** ** Lookup by identifier *)

(** C10. On a document whose [patients] is a sequence of records,
    [find_patient_by_id] never raises and its answer is decided by the order
    of the sequence: it is [None] when no record carries the identifier, and
    otherwise the first record, in order, whose [patientId] is present and
    equal to it.  Whatever it returns other than [None] has that field, so a
    record without a [patientId] is never returned. *)
Theorem find_patient_by_id_first_match patient_data ps patient_id :
  dataset patient_data = Some ps ->
  ((find_patient_by_id patient_data patient_id = Ok VNone /\
    forall p, In p ps -> field "patientId" p <> Some (VStr patient_id))
   \/
   (exists p, find_patient_by_id patient_data patient_id = Ok p /\
              first_with_id patient_id ps p /\
              field "patientId" p = Some (VStr patient_id)))
  /\
  (forall p, find_patient_by_id patient_data patient_id = Ok p ->
             field "patientId" p = None -> p = VNone).
Proof.
  intros Hds. rewrite (find_patient_by_id_dataset _ _ _ Hds).
  apply dataset_get in Hds as [_ Hd].
  destruct (find_loop_cases patient_id ps Hd) as [[H1 H2]|(p & H1 & H2)].
  - split.
    + left. split; [exact H1|]. intros p Hp Hf.
      rewrite forallb_forall in H2. specialize (H2 p Hp).
      apply has_id_field in Hf. rewrite Hf in H2. discriminate.
    + intros p Hp _. congruence.
  - assert (Hf : field "patientId" p = Some (VStr patient_id)).
    { destruct H2 as (? & ? & _ & _ & H2). apply has_id_field. exact H2. }
    split.
    + right. exists p. auto.
    + intros p' Hp' Hnone. congruence.
Qed.

Lemma find_patient_by_id_first_match_witness :
  dataset clinic = Some [anna; diana] /\
  exists p, find_patient_by_id clinic "P2" = Ok p /\
            field "patientId" p = Some (VStr "P2").
Proof.
  split; [reflexivity|].
  destruct (find_patient_by_id_first_match clinic [anna; diana] "P2" eq_refl)
    as [[[H _]|(p & H1 & _ & H3)] _].
  - discriminate H.
  - exists p. split; assumption.
Defined.

(** C1, as stated, fails when two records share an identifier: the scan
    stops at the first of them, so asking for the identifier of the later
    record returns the earlier one. *)
Lemma get_patient_by_id_duplicate_id :
  dataset clinic_dup = Some [anna; diana; anna_again] /\
  In anna_again [anna; diana; anna_again] /\
  field "patientId" anna_again = Some (VStr "P1") /\
  get_patient_by_id clinic_dup "P1"
  = Ok (VDict [("success", VBool true); ("patient", anna)]) /\
  get_patient_by_id clinic_dup "P1"
  <> Ok (VDict [("success", VBool true); ("patient", anna_again)]).
Proof.
  repeat split; try reflexivity.
  - simpl. auto.
  - discriminate.
Qed.

(** C1, amended.  For every record [P] of the dataset that is the first one
    carrying its [patientId], asking for that identifier succeeds and the
    response holds [P] itself. *)
Theorem get_patient_by_id_first patient_data ps patient_id P :
  dataset patient_data = Some ps ->
  first_with_id patient_id ps P ->
  get_patient_by_id patient_data patient_id
  = Ok (VDict [("success", VBool true); ("patient", P)]).
Proof.
  intros Hds Hfirst. unfold get_patient_by_id.
  rewrite (find_patient_by_id_dataset _ _ _ Hds).
  apply dataset_get in Hds as [_ Hd].
  rewrite (find_loop_first _ _ _ Hd Hfirst). simpl.
  destruct Hfirst as (? & ? & _ & _ & Hp).
  rewrite (has_id_truthy _ _ Hp). reflexivity.
Qed.

Lemma get_patient_by_id_first_witness :
  dataset clinic_dup = Some [anna; diana; anna_again] /\
  first_with_id "P2" [anna; diana; anna_again] diana /\
  get_patient_by_id clinic_dup "P2"
  = Ok (VDict [("success", VBool true); ("patient", diana)]).
Proof.
  assert (H : first_with_id "P2" [anna; diana; anna_again] diana).
  { exists [anna], [anna_again]. repeat split; reflexivity. }
  split; [reflexivity|]. split; [exact H|].
  exact (get_patient_by_id_first clinic_dup _ "P2" diana eq_refl H).
Defined.

(** With pairwise distinct identifiers the round trip holds for every
    record that has a str [patientId]. *)
Corollary get_patient_by_id_unique patient_data ps patient_id P :
  dataset patient_data = Some ps ->
  unique_ids ps ->
  In P ps ->
  field "patientId" P = Some (VStr patient_id) ->
  get_patient_by_id patient_data patient_id
  = Ok (VDict [("success", VBool true); ("patient", P)]).
Proof.
  intros Hds Hu Hin Hf. unfold get_patient_by_id.
  rewrite (find_patient_by_id_dataset _ _ _ Hds).
  apply dataset_get in Hds as [_ Hd].
  apply has_id_field in Hf.
  rewrite (find_loop_first _ _ _ Hd (unique_ids_first _ _ _ Hu Hin Hf)). simpl.
  rewrite (has_id_truthy _ _ Hf). reflexivity.
Qed.

(** C2. When no record of the dataset carries [x] as its [patientId], the
    handler raises the 404 exception whose detail embeds [x], and the
    response is the status 404 with the body [{detail: ...}]. *)
Theorem get_patient_by_id_not_found patient_data ps x :
  dataset patient_data = Some ps ->
  (forall p, In p ps -> field "patientId" p <> Some (VStr x)) ->
  get_patient_by_id patient_data x
  = Raise (HTTPException 404 ("Patient with ID " ++ x ++ " not found")%string) /\
  http_response (get_patient_by_id patient_data x)
  = (404%Z, VDict [("detail", VStr ("Patient with ID " ++ x ++ " not found")%string)]).
Proof.
  intros Hds Hno.
  assert (H : get_patient_by_id patient_data x
    = Raise (HTTPException 404 ("Patient with ID " ++ x ++ " not found")%string)).
  { unfold get_patient_by_id.
    rewrite (find_patient_by_id_dataset _ _ _ Hds).
    apply dataset_get in Hds as [_ Hd].
    rewrite (find_loop_none _ _ Hd (no_id_forallb _ _ Hno)). reflexivity. }
  split; [exact H|]. rewrite H. reflexivity.
Qed.

Lemma get_patient_by_id_not_found_witness :
  http_response (get_patient_by_id clinic "P9")
  = (404%Z, VDict [("detail", VStr "Patient with ID P9 not found")]).
Proof.
  refine (proj2 (get_patient_by_id_not_found clinic [anna; diana] "P9" eq_refl _)).
  intros p [<-|[<-|[]]]; discriminate.
Defined.

(** ** Search by name *)

Lemma comprehension_filter cond f items :
  (forall x, In x items -> cond x = Ok (f x)) ->
  comprehension cond items = Ok (List.filter f items).
Proof.
  induction items as [|x items IH]; intros H; [reflexivity|].
  simpl. rewrite (H x (or_introl eq_refl)). simpl.
  rewrite IH by (intros y Hy; apply H; right; exact Hy). simpl.
  destruct (f x); reflexivity.
Qed.

Lemma name_cond_ok key q p :
  is_dict p = true -> name_of key p <> None ->
  (info <- py_get p "personalInformation" (VDict []) ;;
   n <- py_get info key (VStr "") ;;
   n <- py_lower n ;;
   Ok (str_in (lower q) n))
  = Ok (str_in (lower q) (lower (name key p))).
Proof.
  destruct p as [| | | | | |d]; try discriminate. intros _.
  unfold name, name_of, field, py_get.
  destruct (dict_lookup "personalInformation" d) as [[| | | | | |info]|];
    try congruence; simpl.
  - destruct (dict_lookup key info) as [[| | | |s| |]|]; try congruence; reflexivity.
  - reflexivity.
Qed.

Lemma names_ok_inv p :
  names_ok p = true ->
  name_of "firstName" p <> None /\ name_of "lastName" p <> None.
Proof.
  unfold names_ok.
  destruct (name_of "firstName" p), (name_of "lastName" p);
    try discriminate; split; discriminate.
Qed.

Lemma str_in_empty s : str_in "" s = true.
Proof. destruct s; reflexivity. Qed.

Lemma given_contains q s :
  contains_ci q s
  = match given q with Some g => str_in (lower g) (lower s) | None => true end.
Proof.
  destruct q as [q|]; [|reflexivity]. simpl.
  destruct (String.eqb q "") eqn:E; [|reflexivity].
  apply String.eqb_eq in E. subst q. apply str_in_empty.
Qed.

Lemma filter_filter {A} (f g : A -> bool) l :
  List.filter g (List.filter f l) = List.filter (fun x => f x && g x) l.
Proof.
  induction l as [|x l IH]; [reflexivity|]. simpl.
  destruct (f x); simpl; [destruct (g x)|]; rewrite IH; reflexivity.
Qed.

Lemma filter_true {A} (l : list A) : List.filter (fun _ => true) l = l.
Proof. induction l as [|x l IH]; simpl; congruence. Qed.

Lemma filter_ext_in {A} (f g : A -> bool) l :
  (forall x, In x l -> f x = g x) -> List.filter f l = List.filter g l.
Proof.
  induction l as [|x l IH]; intros H; [reflexivity|]. simpl.
  rewrite (H x (or_introl eq_refl)), IH; [reflexivity|].
  intros y Hy. apply H. right. exact Hy.
Qed.

(** One of the two [if] blocks of the handler, on a list of records. *)
Lemma search_step key q ps :
  forallb is_dict ps = true ->
  (forall p, In p ps -> name_of key p <> None) ->
  match given q with
  | Some g =>
      items <- py_iter (VList ps) ;;
      kept <- comprehension (fun p =>
                info <- py_get p "personalInformation" (VDict []) ;;
                n <- py_get info key (VStr "") ;;
                n <- py_lower n ;;
                Ok (str_in (lower g) n)) items ;;
      Ok (VList kept)
  | None => Ok (VList ps)
  end
  = Ok (VList (List.filter (fun p => contains_ci q (name key p)) ps)).
Proof.
  intros Hd Hn.
  rewrite (filter_ext_in _ _ ps (fun p _ => given_contains q (name key p))).
  destruct (given q) as [g|].
  - simpl.
    rewrite (comprehension_filter _ (fun p => str_in (lower g) (lower (name key p)))).
    + reflexivity.
    + intros p Hp. apply name_cond_ok; [|apply Hn; exact Hp].
      rewrite forallb_forall in Hd. apply Hd. exact Hp.
  - rewrite filter_true. reflexivity.
Qed.

Lemma search_patients_by_name_filter patient_data ps firstName lastName :
  dataset patient_data = Some ps ->
  forallb names_ok ps = true ->
  search_patients_by_name patient_data firstName lastName
  = Ok (VDict [("success", VBool true);
               ("count", VInt (Z.of_nat (length (SearchByName_spec ps firstName lastName))));
               ("patients", VList (SearchByName_spec ps firstName lastName))]).
Proof.
  intros Hds Hok. apply dataset_get in Hds as [Hget Hd].
  rewrite forallb_forall in Hok.
  unfold search_patients_by_name. rewrite Hget. cbn [bind].
  rewrite (search_step "firstName" firstName ps Hd)
    by (intros p Hp; apply names_ok_inv, Hok, Hp).
  cbn [bind].
  rewrite (search_step "lastName" lastName).
  - cbn [bind]. rewrite filter_filter. reflexivity.
  - apply forallb_forall. intros p [Hp _]%filter_In.
    rewrite forallb_forall in Hd. apply Hd, Hp.
  - intros p [Hp _]%filter_In. apply names_ok_inv, Hok, Hp.
Qed.

(** C3. The search returns exactly the records whose first name contains the
    [firstName] query and whose last name contains the [lastName] query, both
    as case-insensitive substrings, an absent filter restricting nothing and
    an absent name counting as the empty string; [count] is the length of
    the returned list.  Without parameters the whole dataset comes back, with
    its size as [count]. *)
Theorem search_patients_by_name_spec patient_data ps :
  dataset patient_data = Some ps ->
  search_patients_by_name patient_data None None
  = Ok (VDict [("success", VBool true);
               ("count", VInt (Z.of_nat (length ps)));
               ("patients", VList ps)])
  /\
  (forallb names_ok ps = true ->
   forall firstName lastName,
     search_patients_by_name patient_data firstName lastName
     = Ok (VDict [("success", VBool true);
                  ("count", VInt (Z.of_nat (length (SearchByName_spec ps firstName lastName))));
                  ("patients", VList (SearchByName_spec ps firstName lastName))])).
Proof.
  intros Hds. split.
  - apply dataset_get in Hds as [Hget _].
    unfold search_patients_by_name. rewrite Hget. reflexivity.
  - intros Hok firstName lastName.
    apply search_patients_by_name_filter; assumption.
Qed.

Lemma search_patients_by_name_spec_witness :
  search_patients_by_name clinic (Some "AN") (Some "prin")
  = Ok (VDict [("success", VBool true); ("count", VInt 1); ("patients", VList [diana])]).
Proof.
  exact (proj2 (search_patients_by_name_spec clinic [anna; diana] eq_refl)
               eq_refl (Some "AN"%string) (Some "prin"%string)).
Defined.

(** *** The result as a subsequence *)

Lemma filter_sublist {A} (f : A -> bool) (l : list A) :
  sublist (List.filter f l) l.
Proof.
  induction l as [|x l IH]; simpl; [constructor|].
  destruct (f x); [apply sublist_skip|apply sublist_cons]; exact IH.
Qed.

Lemma filter_and_sublist_l {A} (f g : A -> bool) (l : list A) :
  sublist (List.filter (fun x => f x && g x) l) (List.filter f l).
Proof. rewrite <- filter_filter. apply filter_sublist. Qed.

Lemma filter_and_sublist_r {A} (f g : A -> bool) (l : list A) :
  sublist (List.filter (fun x => f x && g x) l) (List.filter g l).
Proof.
  induction l as [|x l IH]; simpl; [constructor|].
  destruct (f x), (g x); simpl;
    [apply sublist_skip|exact IH|apply sublist_cons|exact IH]; exact IH.
Qed.

Lemma sublist_In {A} (l1 l2 : list A) x : sublist l1 l2 -> In x l1 -> In x l2.
Proof.
  induction 1 as [|y l1 l2 _ IH|y l1 l2 _ IH]; simpl; intuition.
Qed.

Lemma SearchByName_spec_first ps firstName :
  SearchByName_spec ps firstName None
  = List.filter (fun p => contains_ci firstName (name "firstName" p)) ps.
Proof.
  unfold SearchByName_spec. apply filter_ext_in. intros p _. apply andb_true_r.
Qed.

Lemma SearchByName_spec_last ps lastName :
  SearchByName_spec ps None lastName
  = List.filter (fun p => contains_ci lastName (name "lastName" p)) ps.
Proof. reflexivity. Qed.

(** C9. Whatever the two filters are, the search succeeds and its
    [patients] list is a subsequence of the dataset: its elements keep the
    order of the dataset, each of them occurs in the dataset, and none more
    often than there.  It is also a subsequence of what the search returns
    with either filter left out, and those results are subsequences of the
    dataset, so that a further filter never adds a record. *)
Theorem search_patients_by_name_subsequence patient_data ps firstName lastName :
  dataset patient_data = Some ps ->
  forallb names_ok ps = true ->
  exists both only_first only_last,
    patients_returned (search_patients_by_name patient_data firstName lastName)
    = Some both /\
    patients_returned (search_patients_by_name patient_data firstName None)
    = Some only_first /\
    patients_returned (search_patients_by_name patient_data None lastName)
    = Some only_last /\
    patients_returned (search_patients_by_name patient_data None None) = Some ps /\
    sublist both ps /\
    (forall p, In p both -> In p ps) /\
    submseteq both ps /\
    sublist both only_first /\
    sublist both only_last /\
    sublist only_first ps /\
    sublist only_last ps.
Proof.
  intros Hds Hok.
  exists (SearchByName_spec ps firstName lastName),
         (SearchByName_spec ps firstName None),
         (SearchByName_spec ps None lastName).
  rewrite !(search_patients_by_name_filter _ _ _ _ Hds Hok).
  assert (Hsub : forall f l, sublist (SearchByName_spec ps f l) ps)
    by (intros; apply filter_sublist).
  repeat split; try reflexivity; try apply Hsub.
  - unfold SearchByName_spec. simpl. rewrite filter_true. reflexivity.
  - intros p. apply sublist_In, Hsub.
  - apply sublist_submseteq, Hsub.
  - rewrite SearchByName_spec_first. apply filter_and_sublist_l.
  - rewrite SearchByName_spec_last. apply filter_and_sublist_r.
Qed.

Lemma search_patients_by_name_subsequence_witness :
  exists both only_first only_last,
    patients_returned (search_patients_by_name clinic (Some "an") (Some "LEE"))
    = Some both /\
    patients_returned (search_patients_by_name clinic (Some "an") None)
    = Some only_first /\
    patients_returned (search_patients_by_name clinic None (Some "LEE"))
    = Some only_last /\
    patients_returned (search_patients_by_name clinic None None)
    = Some [anna; diana] /\
    sublist both [anna; diana] /\
    (forall p, In p both -> In p [anna; diana]) /\
    submseteq both [anna; diana] /\
    sublist both only_first /\
    sublist both only_last /\
    sublist only_first [anna; diana] /\
    sublist only_last [anna; diana].
Proof.
  exact (search_patients_by_name_subsequence clinic [anna; diana]
           (Some "an"%string) (Some "LEE"%string) eq_refl eq_refl).
Defined.

(** Without any assumption on the name fields, a search that returns has
    still only selected among the records. *)
Lemma comprehension_sublist cond items kept :
  comprehension cond items = Ok kept -> sublist kept items.
Proof.
  revert kept. induction items as [|x items IH]; simpl; intros kept H.
  - injection H as <-. constructor.
  - destruct (cond x) as [b|]; [|discriminate]. simpl in H.
    destruct (comprehension cond items) as [k|]; [|discriminate]. simpl in H.
    injection H as <-.
    destruct b; [apply sublist_skip|apply sublist_cons]; apply IH; reflexivity.
Qed.

Lemma search_patients_by_name_returns patient_data ps firstName lastName body :
  dataset patient_data = Some ps ->
  search_patients_by_name patient_data firstName lastName = Ok body ->
  exists kept, field "patients" body = Some (VList kept) /\ sublist kept ps.
Proof.
  intros Hds. apply dataset_get in Hds as [Hget _].
  unfold search_patients_by_name. rewrite Hget. cbn [bind].
  assert (Hstep : forall (q : option string) cond items r,
            match q with
            | Some g =>
                its <- py_iter (VList items) ;;
                kept <- comprehension (cond g) its ;;
                Ok (VList kept)
            | None => Ok (VList items)
            end = Ok r ->
            exists kept, r = VList kept /\ sublist kept items).
  { intros [g|] cond items r; simpl.
    - destruct (comprehension (cond g) items) as [k|] eqn:E; [|discriminate].
      simpl. intros [= <-]. exists k. split; [reflexivity|].
      exact (comprehension_sublist _ _ _ E).
    - intros [= <-]. exists items. split; reflexivity. }
  match goal with
  | |- bind ?first _ = _ -> _ => destruct first as [r1|] eqn:E1; [|discriminate]
  end.
  apply (Hstep (given firstName)
           (fun g p =>
              info <- py_get p "personalInformation" (VDict []) ;;
              n <- py_get info "firstName" (VStr "") ;;
              n <- py_lower n ;;
              Ok (str_in (lower g) n))) in E1 as (k1 & -> & Hk1).
  cbn [bind].
  match goal with
  | |- bind ?second _ = _ -> _ => destruct second as [r2|] eqn:E2; [|discriminate]
  end.
  apply (Hstep (given lastName)
           (fun g p =>
              info <- py_get p "personalInformation" (VDict []) ;;
              n <- py_get info "lastName" (VStr "") ;;
              n <- py_lower n ;;
              Ok (str_in (lower g) n))) in E2 as (k2 & -> & Hk2).
  simpl. intros [= <-]. exists k2. split; [reflexivity|].
  transitivity k1; assumption.
Qed.

(** ** Sub-resources of a record *)

(** Once the scan has resolved the identifier, the 404 branch is not taken. *)
Lemma find_patient_by_id_resolved patient_data ps patient_id p :
  dataset patient_data = Some ps ->
  first_with_id patient_id ps p ->
  find_patient_by_id patient_data patient_id = Ok p /\ truthy p = true.
Proof.
  intros Hds Hfirst. rewrite (find_patient_by_id_dataset _ _ _ Hds).
  apply dataset_get in Hds as [_ Hd]. split.
  - apply find_loop_first; assumption.
  - destruct Hfirst as (? & ? & _ & _ & Hp). exact (has_id_truthy _ _ Hp).
Qed.

Lemma py_get_field p key default :
  is_dict p = true ->
  py_get p key default
  = Ok (match field key p with Some v => v | None => default end).
Proof.
  destruct p as [| | | | | |d]; try discriminate. intros _.
  unfold py_get, field. destruct (dict_lookup key d); reflexivity.
Qed.

Lemma has_id_is_dict patient_id p : has_id patient_id p = true -> is_dict p = true.
Proof. unfold has_id, field. destruct p; try discriminate. reflexivity. Qed.

Lemma first_with_id_is_dict patient_id ps p :
  first_with_id patient_id ps p -> is_dict p = true.
Proof. intros (? & ? & _ & _ & Hp). exact (has_id_is_dict _ _ Hp). Qed.

(** C4. For an identifier that the dataset resolves to the record [p]:
    with [type] one of the three bucket names the response carries [type]
    and that bucket of [p]'s appointments alone, the empty list when the
    mapping has no such bucket; with [type] absent or any other string the
    response carries the whole appointments mapping and no [type]. *)
Theorem get_patient_appointments_spec patient_data ps patient_id p :
  dataset patient_data = Some ps ->
  first_with_id patient_id ps p ->
  (forall type buckets,
     In type ["upcoming"; "recent"; "past"]%string ->
     appointments_of p = VDict buckets ->
     get_patient_appointments patient_data patient_id (Some type)
     = Ok (VDict [("success", VBool true);
                  ("type", VStr type);
                  ("appointments",
                   match dict_lookup type buckets with
                   | Some bucket => bucket
                   | None => VList []
                   end)]))
  /\
  (forall type,
     (forall t, type = Some t -> ~ In t ["upcoming"; "recent"; "past"]%string) ->
     get_patient_appointments patient_data patient_id type
     = Ok (VDict [("success", VBool true);
                  ("appointments", appointments_of p)])).
Proof.
  intros Hds Hfirst.
  destruct (find_patient_by_id_resolved _ _ _ _ Hds Hfirst) as [Hfind Htruthy].
  pose proof (first_with_id_is_dict _ _ _ Hfirst) as Hdict.
  unfold get_patient_appointments. rewrite Hfind. cbn [bind].
  rewrite Htruthy. cbn [negb].
  rewrite (py_get_field p "appointments" (VDict []) Hdict).
  fold (appointments_of p). cbn [bind]. split.
  - intros type buckets Hin Happ. rewrite Happ.
    simpl in Hin. destruct Hin as [<-|[<-|[<-|[]]]]; simpl;
      destruct (dict_lookup _ buckets); reflexivity.
  - intros [t|] Hnot; [|reflexivity]. unfold given.
    destruct (String.eqb t "") eqn:E; [reflexivity|].
    destruct (existsb (String.eqb t) appointment_types) eqn:Ex; [|reflexivity].
    apply existsb_exists in Ex as (u & Hu & Heq%String.eqb_eq).
    subst u. destruct (Hnot t eq_refl Hu).
Qed.

Lemma get_patient_appointments_spec_witness :
  get_patient_appointments clinic "P2" (Some "upcoming")
  = Ok (VDict [("success", VBool true);
               ("type", VStr "upcoming");
               ("appointments", VList [VDict [("date", VStr "2026-01-10")]])])
  /\
  get_patient_appointments clinic "P2" (Some "bogus")
  = Ok (VDict [("success", VBool true);
               ("appointments", appointments_of diana)]).
Proof.
  assert (H : first_with_id "P2" [anna; diana] diana).
  { exists [anna], []. repeat split; reflexivity. }
  destruct (get_patient_appointments_spec clinic [anna; diana] "P2" diana eq_refl H)
    as [H1 H2].
  split.
  - refine (H1 "upcoming"%string _ _ eq_refl). simpl. auto.
  - apply H2. intros t [= <-] [E|[E|[E|[]]]]; discriminate E.
Defined.

Lemma test_results_get p tests :
  is_dict p = true ->
  test_results p = Some tests ->
  py_get p "testResults" (VList []) = Ok (VList tests) /\
  forallb is_dict tests = true.
Proof.
  intros Hdict. rewrite (py_get_field _ _ _ Hdict). unfold test_results.
  destruct (field "testResults" p) as [[| | | | |l|]|]; try discriminate.
  - destruct (forallb is_dict l) eqn:E; [|discriminate].
    intros [= <-]. auto.
  - intros [= <-]. auto.
Qed.

Lemma test_cond_ok t test :
  is_dict test = true ->
  (v <- py_get test "testType" VNone ;; Ok (py_eq_str v t))
  = Ok (has_test_type t test).
Proof.
  intros Hdict. rewrite (py_get_field _ _ _ Hdict). unfold has_test_type. simpl.
  destruct (field "testType" test) as [[| | | | | |]|]; reflexivity.
Qed.

Lemma get_patient_test_results_given patient_data ps patient_id p tests testType :
  dataset patient_data = Some ps ->
  first_with_id patient_id ps p ->
  test_results p = Some tests ->
  get_patient_test_results patient_data patient_id testType
  = let kept := match given testType with
                | Some t => List.filter (has_test_type t) tests
                | None => tests
                end in
    Ok (VDict [("success", VBool true);
               ("count", VInt (Z.of_nat (length kept)));
               ("testResults", VList kept)]).
Proof.
  intros Hds Hfirst Htests.
  destruct (find_patient_by_id_resolved _ _ _ _ Hds Hfirst) as [Hfind Htruthy].
  pose proof (first_with_id_is_dict _ _ _ Hfirst) as Hdict.
  destruct (test_results_get _ _ Hdict Htests) as [Hget Hd].
  unfold get_patient_test_results. rewrite Hfind. cbn [bind].
  rewrite Htruthy. cbn [negb]. rewrite Hget. cbn [bind].
  destruct (given testType) as [t|]; [|reflexivity].
  cbn [py_iter bind].
  rewrite (comprehension_filter _ (has_test_type t)); [reflexivity|].
  intros test Hin. apply test_cond_ok.
  rewrite forallb_forall in Hd. apply Hd, Hin.
Qed.

(** C5, as stated, fails for a [testType] that is given but empty: the
    handler then skips the filter and returns every entry, where an exact
    match on the empty string selects none of them. *)
Lemma get_patient_test_results_empty_filter :
  dataset clinic = Some [anna; diana] /\
  first_with_id "P2" [anna; diana] diana /\
  (exists tests, test_results diana = Some tests /\
                 List.filter (has_test_type "") tests = [] /\
                 get_patient_test_results clinic "P2" (Some ""%string)
                 = Ok (VDict [("success", VBool true);
                              ("count", VInt 3);
                              ("testResults", VList tests)])) /\
  get_patient_test_results clinic "P2" (Some ""%string)
  <> Ok (VDict [("success", VBool true);
                ("count", VInt 0);
                ("testResults", VList [])]).
Proof.
  split; [reflexivity|]. split.
  - exists [anna], []. repeat split; reflexivity.
  - split.
    + eexists. repeat split; reflexivity.
    + discriminate.
Qed.

(** C5, amended.  For an identifier that the dataset resolves to the record
    [p] with test results [tests]: a non-empty [testType] returns exactly the
    entries whose [testType] equals it letter for letter, in order; an absent
    or empty [testType] returns all entries; in each case [count] is the
    length of the returned list. *)
Theorem get_patient_test_results_spec patient_data ps patient_id p tests :
  dataset patient_data = Some ps ->
  first_with_id patient_id ps p ->
  test_results p = Some tests ->
  (forall t, t <> ""%string ->
     get_patient_test_results patient_data patient_id (Some t)
     = Ok (VDict [("success", VBool true);
                  ("count", VInt (Z.of_nat (length (List.filter (has_test_type t) tests))));
                  ("testResults", VList (List.filter (has_test_type t) tests))]))
  /\
  (forall testType, testType = None \/ testType = Some ""%string ->
     get_patient_test_results patient_data patient_id testType
     = Ok (VDict [("success", VBool true);
                  ("count", VInt (Z.of_nat (length tests)));
                  ("testResults", VList tests)])).
Proof.
  intros Hds Hfirst Htests. split.
  - intros t Ht.
    rewrite (get_patient_test_results_given _ _ _ _ _ _ Hds Hfirst Htests).
    unfold given. apply String.eqb_neq in Ht. rewrite Ht. reflexivity.
  - intros testType [->| ->];
      rewrite (get_patient_test_results_given _ _ _ _ _ _ Hds Hfirst Htests);
      reflexivity.
Qed.

Lemma get_patient_test_results_spec_witness :
  get_patient_test_results clinic "P2" (Some "Laboratory"%string)
  = Ok (VDict [("success", VBool true);
               ("count", VInt 2);
               ("testResults",
                VList [VDict [("testType", VStr "Laboratory"); ("name", VStr "CBC")];
                       VDict [("testType", VStr "Laboratory"); ("name", VStr "Lipids")]])])
  /\
  get_patient_test_results clinic "P2" (Some "laboratory"%string)
  = Ok (VDict [("success", VBool true); ("count", VInt 0); ("testResults", VList [])]).
Proof.
  assert (H : first_with_id "P2" [anna; diana] diana).
  { exists [anna], []. repeat split; reflexivity. }
  destruct (get_patient_test_results_spec clinic [anna; diana] "P2" diana _
              eq_refl H eq_refl) as [H1 _].
  split; apply H1; discriminate.
Defined.

(** ** Absent fields *)

(** C7, as stated, fails for the appointments of a record without that
    field when a recognized [type] is given: the response then carries the
    empty bucket, a list, and not an empty mapping. *)
Lemma get_patient_appointments_absent_bucket :
  dataset clinic = Some [anna; diana] /\
  first_with_id "P1" [anna; diana] anna /\
  field "appointments" anna = None /\
  get_patient_appointments clinic "P1" (Some "upcoming"%string)
  = Ok (VDict [("success", VBool true);
               ("type", VStr "upcoming");
               ("appointments", VList [])]) /\
  (forall body,
     get_patient_appointments clinic "P1" (Some "upcoming"%string) = Ok body ->
     field "appointments" body <> Some (VDict [])).
Proof.
  split; [reflexivity|]. split.
  - exists [], [diana]. repeat split; reflexivity.
  - repeat split. intros body [= <-]. discriminate.
Qed.

(** C7, amended.  For an identifier that the dataset resolves to the record
    [p], each accessor succeeds on a field that [p] lacks: appointments
    answers the empty mapping when [type] is absent or not a bucket name, and
    the empty list (the empty bucket) together with [type] when it is one;
    test results answers the empty list with count 0 whatever the filter;
    medical history and insurance answer the empty mapping; care providers
    and procedures answer the empty list. *)
Theorem absent_field_defaults patient_data ps patient_id p :
  dataset patient_data = Some ps ->
  first_with_id patient_id ps p ->
  (field "appointments" p = None ->
   (forall type,
      (forall t, type = Some t -> ~ In t ["upcoming"; "recent"; "past"]%string) ->
      get_patient_appointments patient_data patient_id type
      = Ok (VDict [("success", VBool true); ("appointments", VDict [])])) /\
   (forall type,
      In type ["upcoming"; "recent"; "past"]%string ->
      get_patient_appointments patient_data patient_id (Some type)
      = Ok (VDict [("success", VBool true);
                   ("type", VStr type);
                   ("appointments", VList [])]))) /\
  (field "testResults" p = None ->
   forall testType,
     get_patient_test_results patient_data patient_id testType
     = Ok (VDict [("success", VBool true);
                  ("count", VInt 0);
                  ("testResults", VList [])])) /\
  (field "medicalHistory" p = None ->
   get_patient_medical_history patient_data patient_id
   = Ok (VDict [("success", VBool true); ("medicalHistory", VDict [])])) /\
  (field "insurance" p = None ->
   get_patient_insurance patient_data patient_id
   = Ok (VDict [("success", VBool true); ("insurance", VDict [])])) /\
  (field "careProviders" p = None ->
   get_patient_care_providers patient_data patient_id
   = Ok (VDict [("success", VBool true); ("careProviders", VList [])])) /\
  (field "procedures" p = None ->
   get_patient_procedures patient_data patient_id
   = Ok (VDict [("success", VBool true); ("procedures", VList [])])).
Proof.
  intros Hds Hfirst.
  destruct (find_patient_by_id_resolved _ _ _ _ Hds Hfirst) as [Hfind Htruthy].
  pose proof (first_with_id_is_dict _ _ _ Hfirst) as Hdict.
  unfold get_patient_appointments, get_patient_test_results,
    get_patient_medical_history, get_patient_insurance,
    get_patient_care_providers, get_patient_procedures.
  rewrite Hfind. cbn [bind]. rewrite Htruthy. cbn [negb].
  rewrite !(py_get_field p _ _ Hdict).
  split; [|split].
  - intros Happ. rewrite Happ. cbn [bind]. split.
    + intros [t|] Hnot; [|reflexivity]. unfold given.
      destruct (String.eqb t "") eqn:E; [reflexivity|].
      destruct (existsb (String.eqb t) appointment_types) eqn:Ex; [|reflexivity].
      apply existsb_exists in Ex as (u & Hu & Heq%String.eqb_eq).
      subst u. destruct (Hnot t eq_refl Hu).
    + intros type Hin. simpl in Hin.
      destruct Hin as [<-|[<-|[<-|[]]]]; reflexivity.
  - intros Htests testType. rewrite Htests. cbn [bind].
    destruct (given testType); reflexivity.
  - repeat split; intros ->; reflexivity.
Qed.

Lemma absent_field_defaults_witness :
  get_patient_test_results clinic "P1" (Some "Laboratory"%string)
  = Ok (VDict [("success", VBool true); ("count", VInt 0); ("testResults", VList [])])
  /\
  get_patient_insurance clinic "P1"
  = Ok (VDict [("success", VBool true); ("insurance", VDict [])]).
Proof.
  assert (H : first_with_id "P1" [anna; diana] anna).
  { exists [], [diana]. repeat split; reflexivity. }
  destruct (absent_field_defaults clinic [anna; diana] "P1" anna eq_refl H)
    as (_ & Htests & _ & Hins & _).
  split; [apply Htests|apply Hins]; reflexivity.
Defined.

(** ** One lookup for every accessor *)

Lemma no_http_Ok {A} (a : A) : no_http (Ok a).
Proof. intros c d. discriminate. Qed.

Lemma no_http_bind {A B} (r : result A) (k : A -> result B) :
  no_http r -> (forall a, no_http (k a)) -> no_http (bind r k).
Proof.
  intros Hr Hk. destruct r as [a|e]; simpl; [apply Hk|].
  intros c d [= ->]. exact (Hr c d eq_refl).
Qed.

Lemma no_http_get o key default : no_http (py_get o key default).
Proof.
  intros c d. destruct o as [| | | | | |m]; try discriminate.
  simpl. destruct (dict_lookup key m); discriminate.
Qed.

Lemma no_http_iter o : no_http (py_iter o).
Proof. intros c d. destruct o; discriminate. Qed.

Lemma no_http_len o : no_http (py_len o).
Proof. intros c d. destruct o; discriminate. Qed.

Lemma no_http_comprehension cond items :
  (forall x, no_http (cond x)) -> no_http (comprehension cond items).
Proof.
  intros Hc. induction items as [|x items IH]; simpl; [apply no_http_Ok|].
  apply no_http_bind; [apply Hc|]. intros b.
  apply no_http_bind; [exact IH|]. intros kept. apply no_http_Ok.
Qed.

Create HintDb no_http.
#[local] Hint Resolve no_http_Ok no_http_get no_http_iter no_http_len : no_http.

Ltac no_http_step :=
  match goal with
  | |- no_http (bind _ _) => apply no_http_bind; [|intro]
  | |- no_http (comprehension _ _) => apply no_http_comprehension; intro
  | |- no_http (match ?x with _ => _ end) => destruct x
  | |- no_http (if ?b then _ else _) => destruct b
  | |- _ => solve [auto with no_http]
  end.

(** A record returned by the scan carries the identifier asked for. *)
Lemma find_loop_returns patient_id items p :
  find_loop patient_id items = Ok p -> truthy p = true ->
  has_id patient_id p = true.
Proof.
  induction items as [|q items IH]; simpl.
  - intros [= <-]. discriminate.
  - destruct q as [| | | | | |d]; try discriminate. simpl.
    destruct (dict_lookup "patientId" d) as [v|] eqn:E; simpl.
    + destruct (py_eq_str v patient_id) eqn:Eq; [|exact IH].
      intros [= <-] _. unfold has_id, field. rewrite E.
      destruct v; try discriminate. exact Eq.
    + exact IH.
Qed.

Lemma find_patient_by_id_returns patient_data patient_id p :
  find_patient_by_id patient_data patient_id = Ok p -> truthy p = true ->
  has_id patient_id p = true.
Proof.
  unfold find_patient_by_id.
  destruct (py_get patient_data "patients" (VList [])) as [v|]; [|discriminate].
  simpl. destruct (py_iter v) as [items|]; [|discriminate].
  simpl. apply find_loop_returns.
Qed.

(** On the document that holds this one record, the scan finds it. *)
Lemma find_patient_by_id_alone patient_id p :
  has_id patient_id p = true ->
  find_patient_by_id (VDict [("patients", VList [p])]) patient_id = Ok p.
Proof.
  intros Hp. change (find_loop patient_id [p] = Ok p).
  rewrite find_loop_cons by exact (has_id_is_dict _ _ Hp).
  rewrite Hp. reflexivity.
Qed.

(** C8. Every accessor resolves the identifier as Get-by-ID does.  Whatever
    exception ends Get-by-ID ends the accessor too; the accessor answers 404
    exactly when Get-by-ID does, with the same detail; and when the accessor
    succeeds, Get-by-ID succeeds with a record [p], and the accessor's
    response is the one it gives on the document that holds [p] alone. *)
Theorem accessors_share_lookup patient_data patient_id a :
  (forall e, get_patient_by_id patient_data patient_id = Raise e ->
             run patient_data patient_id a = Raise e) /\
  (forall detail,
     run patient_data patient_id a = Raise (HTTPException 404 detail) <->
     get_patient_by_id patient_data patient_id = Raise (HTTPException 404 detail)) /\
  (forall detail,
     get_patient_by_id patient_data patient_id = Raise (HTTPException 404 detail) ->
     detail = ("Patient with ID " ++ patient_id ++ " not found")%string) /\
  (forall body,
     run patient_data patient_id a = Ok body ->
     exists p,
       get_patient_by_id patient_data patient_id
       = Ok (VDict [("success", VBool true); ("patient", p)]) /\
       run (VDict [("patients", VList [p])]) patient_id a = Ok body).
Proof.
  unfold get_patient_by_id.
  destruct (find_patient_by_id patient_data patient_id) as [p|e] eqn:Hfind.
  - cbn [bind]. destruct (truthy p) eqn:Htruthy.
    + pose proof (find_patient_by_id_returns _ _ _ Hfind Htruthy) as Hp.
      pose proof (find_patient_by_id_alone _ _ Hp) as Halone.
      assert (Hok : no_http (run patient_data patient_id a)).
      { destruct a; simpl;
          unfold get_patient_appointments, get_patient_test_results,
            get_patient_medical_history, get_patient_insurance,
            get_patient_care_providers, get_patient_procedures;
          rewrite Hfind; cbn [bind]; rewrite Htruthy; cbn [negb];
          repeat no_http_step. }
      cbn [bind negb].
      split; [intros e H; discriminate H|].
      split; [|split; [intros d H; discriminate H|]].
      * intros detail. split; [|discriminate].
        intros H. destruct (Hok _ _ H).
      * intros body Hbody. exists p. split; [reflexivity|].
        rewrite <- Hbody. destruct a; simpl;
          unfold get_patient_appointments, get_patient_test_results,
            get_patient_medical_history, get_patient_insurance,
            get_patient_care_providers, get_patient_procedures;
          rewrite Hfind, Halone; reflexivity.
    + cbn [bind negb].
      assert (Hrun : run patient_data patient_id a
                     = Raise (HTTPException 404
                         ("Patient with ID " ++ patient_id ++ " not found")%string)).
      { destruct a; simpl;
          unfold get_patient_appointments, get_patient_test_results,
            get_patient_medical_history, get_patient_insurance,
            get_patient_care_providers, get_patient_procedures;
          rewrite Hfind; cbn [bind]; rewrite Htruthy; reflexivity. }
      rewrite Hrun. repeat split; try congruence.
  - assert (Hrun : run patient_data patient_id a = Raise e).
    { destruct a; simpl;
        unfold get_patient_appointments, get_patient_test_results,
          get_patient_medical_history, get_patient_insurance,
          get_patient_care_providers, get_patient_procedures;
        rewrite Hfind; reflexivity. }
    rewrite Hrun. cbn [bind]. repeat split; try congruence.
    unfold find_patient_by_id in Hfind. intros detail [= ->].
    exfalso. revert Hfind. apply (no_http_bind _ _ (no_http_get _ _ _)).
    intros v. apply no_http_bind; [apply no_http_iter|].
    intros items. clear. induction items as [|q items IH]; simpl.
    + apply no_http_Ok.
    + apply no_http_bind; [apply no_http_get|]. intros pid.
      destruct (py_eq_str pid patient_id); [apply no_http_Ok|exact IH].
Qed.

(** ** Start-up without a usable data file *)

Example load_good_file :
  load_patient_data (fun _ => Returns clinic) (Returns "{...}"%string)
  = Returns (clinic, []).
Proof. reflexivity. Qed.

(** Any other exception of [open] is not caught. *)
Example load_unreadable_file :
  load_patient_data (fun _ => Returns clinic) (Throws (OtherError "PermissionError"))
  = Throws (OtherError "PermissionError").
Proof. reflexivity. Qed.

(** C6, as stated, fails for a file whose content is malformed in another
    way than as JSON text: bytes that are not valid UTF-8 make [json.load]
    raise [UnicodeDecodeError] while it reads the file, neither [except]
    clause catches it, and start-up ends with that exception instead of an
    empty dataset. *)
Lemma load_patient_data_undecodable :
  load_patient_data (fun _ => Throws (OtherError "UnicodeDecodeError"))
                    (Returns (String (ascii_of_nat 255) (String (ascii_of_nat 254) "")))
  = Throws (OtherError "UnicodeDecodeError") /\
  (forall patient_data printed,
     load_patient_data (fun _ => Throws (OtherError "UnicodeDecodeError"))
                       (Returns (String (ascii_of_nat 255) (String (ascii_of_nat 254) "")))
     <> Returns (patient_data, printed)).
Proof.
  split; [reflexivity|]. intros patient_data printed H. discriminate H.
Qed.

(** C6, amended.  When [open] raises [FileNotFoundError], or the file opens
    and [json.load] raises [JSONDecodeError] on its text, start-up
    completes: one diagnostic line is printed, [patient_data] is bound to
    the document with an empty [patients] list, and List-all then answers
    200 with [{success: true, count: 0, patients: []}]. *)
Theorem load_patient_data_fallback (json_load : string -> outcome value) opened :
  opened = Throws FileNotFoundError \/
  (exists text msg, opened = Returns text /\
                    json_load text = Throws (JSONDecodeError msg)) ->
  exists patient_data line,
    load_patient_data json_load opened = Returns (patient_data, [line]) /\
    patient_data = VDict [("patients", VList [])] /\
    dataset patient_data = Some [] /\
    get_all_patients patient_data
    = Ok (VDict [("success", VBool true);
                 ("count", VInt 0);
                 ("patients", VList [])]) /\
    http_response (get_all_patients patient_data)
    = (200%Z, VDict [("success", VBool true);
                     ("count", VInt 0);
                     ("patients", VList [])]).
Proof.
  intros [->|(text & msg & -> & Hjson)]; unfold load_patient_data;
    [|rewrite Hjson]; eexists; eexists; repeat split.
Qed.

Lemma load_patient_data_fallback_witness :
  exists patient_data line,
    load_patient_data (fun _ => Throws (JSONDecodeError "Expecting value"))
                      (Returns "{"%string)
    = Returns (patient_data, [line]) /\
    patient_data = VDict [("patients", VList [])] /\
    dataset patient_data = Some [] /\
    get_all_patients patient_data
    = Ok (VDict [("success", VBool true);
                 ("count", VInt 0);
                 ("patients", VList [])]) /\
    http_response (get_all_patients patient_data)
    = (200%Z, VDict [("success", VBool true);
                     ("count", VInt 0);
                     ("patients", VList [])]).
Proof.
  apply (load_patient_data_fallback
           (fun _ => Throws (JSONDecodeError "Expecting value"))
           (Returns "{"%string)).
  right. exists "{"%string, "Expecting value"%string. split; reflexivity.
Defined.

(** * Further properties of the handlers *)

(** ** Strings *)

Lemma prefix_app n h :
  String.prefix n h = true <-> exists after, h = (n ++ after)%string.
Proof.
  revert h. induction n as [|c n IH]; intros h.
  - split; [intros _; exists h; reflexivity|intros _; destruct h; reflexivity].
  - destruct h as [|d h]; simpl.
    + split; [discriminate|intros [a H]; discriminate H].
    + destruct (ascii_dec c d) as [->|Hne].
      * rewrite IH. split; intros [a H]; exists a; congruence.
      * split; [discriminate|]. intros [a H]. congruence.
Qed.

(** [str_in] is Python's substring test. *)
Lemma str_in_occurs n h : str_in n h = true <-> occurs_in n h.
Proof.
  unfold occurs_in. induction h as [|c h IH].
  - cbn [str_in]. rewrite orb_false_r, prefix_app. split.
    + intros [a H]. exists ""%string, a. exact H.
    + intros (b & a & H). destruct b; [exists a; exact H|discriminate H].
  - cbn [str_in]. rewrite orb_true_iff, prefix_app, IH. split.
    + intros [[a H]|(b & a & H)].
      * exists ""%string, a. exact H.
      * exists (String c b), a. simpl. rewrite H. reflexivity.
    + intros (b & a & H). destruct b as [|d b].
      * left. exists a. exact H.
      * right. exists b, a. simpl in H. congruence.
Qed.

Lemma string_app_assoc (a b c : string) :
  ((a ++ b) ++ c = a ++ (b ++ c))%string.
Proof. induction a as [|x a IH]; simpl; congruence. Qed.

Lemma occurs_in_trans a b c : occurs_in a b -> occurs_in b c -> occurs_in a c.
Proof.
  intros (p1 & s1 & ->) (p2 & s2 & ->).
  exists (p2 ++ p1)%string, (s1 ++ s2)%string.
  rewrite !string_app_assoc. reflexivity.
Qed.

Lemma lower_app a b : lower (a ++ b) = (lower a ++ lower b)%string.
Proof. induction a as [|x a IH]; simpl; congruence. Qed.

Lemma occurs_in_lower a b : occurs_in a b -> occurs_in (lower a) (lower b).
Proof.
  intros (p & s & ->). exists (lower p), (lower s).
  rewrite !lower_app. reflexivity.
Qed.

Lemma lower_empty s : lower s = ""%string <-> s = ""%string.
Proof. destruct s; simpl; split; congruence. Qed.

Lemma lower_char_idem c : lower_char (lower_char c) = lower_char c.
Proof. destruct c as [[] [] [] [] [] [] [] []]; reflexivity. Qed.

Lemma lower_idem s : lower (lower s) = lower s.
Proof. induction s as [|c s IH]; simpl; [|rewrite lower_char_idem, IH]; reflexivity. Qed.

(** ** More on the search *)

Lemma given_lower q1 q2 :
  option_map lower q1 = option_map lower q2 ->
  option_map lower (given q1) = option_map lower (given q2) /\
  (given q1 = None <-> given q2 = None).
Proof.
  destruct q1 as [a|], q2 as [b|]; simpl; try discriminate; [|tauto].
  intros [= H].
  destruct (String.eqb a "") eqn:Ea, (String.eqb b "") eqn:Eb; simpl.
  - tauto.
  - apply String.eqb_eq in Ea. subst a. simpl in H. symmetry in H.
    apply (proj1 (lower_empty b)) in H. subst b. discriminate Eb.
  - apply String.eqb_eq in Eb. subst b. simpl in H.
    apply (proj1 (lower_empty a)) in H. subst a. discriminate Ea.
  - rewrite H. split; [reflexivity|]. split; discriminate.
Qed.

(** The search sees its two queries only through their lowercase forms:
    queries that differ in the case of their letters alone give the same
    response, on any document. *)
Theorem search_patients_by_name_case patient_data f1 f2 l1 l2 :
  option_map lower f1 = option_map lower f2 ->
  option_map lower l1 = option_map lower l2 ->
  search_patients_by_name patient_data f1 l1
  = search_patients_by_name patient_data f2 l2.
Proof.
  intros [Hf Hf0]%given_lower [Hl Hl0]%given_lower.
  unfold search_patients_by_name.
  destruct (given f1) as [a|], (given f2) as [b|];
    try (exfalso; destruct Hf0; discriminate || (auto; fail)).
  - destruct (given l1) as [c|], (given l2) as [d|];
      try (exfalso; destruct Hl0; discriminate || (auto; fail)).
    + simpl in Hf, Hl. injection Hf as ->. injection Hl as ->. reflexivity.
    + simpl in Hf. injection Hf as ->. reflexivity.
  - destruct (given l1) as [c|], (given l2) as [d|];
      try (exfalso; destruct Hl0; discriminate || (auto; fail)).
    + simpl in Hl. injection Hl as ->. reflexivity.
    + reflexivity.
Qed.

Lemma search_patients_by_name_case_witness :
  search_patients_by_name clinic (Some "DIA"%string) (Some "pRi"%string)
  = search_patients_by_name clinic (Some "dia"%string) (Some "PRI"%string).
Proof.
  apply (search_patients_by_name_case clinic
           (Some "DIA"%string) (Some "dia"%string)
           (Some "pRi"%string) (Some "PRI"%string)); reflexivity.
Defined.

(** List-all is the search without filters: when each query is absent or
    empty, the two handlers give the same outcome on any document, errors
    included. *)
Theorem search_without_filters patient_data firstName lastName :
  firstName = None \/ firstName = Some ""%string ->
  lastName = None \/ lastName = Some ""%string ->
  search_patients_by_name patient_data firstName lastName
  = get_all_patients patient_data.
Proof.
  intros Hf Hl.
  assert (given firstName = None) as Ef by (destruct Hf as [->| ->]; reflexivity).
  assert (given lastName = None) as El by (destruct Hl as [->| ->]; reflexivity).
  unfold search_patients_by_name, get_all_patients. rewrite Ef, El.
  destruct (py_get patient_data "patients" (VList [])) as [v|e]; [|reflexivity].
  cbn [bind]. destruct (py_len v); reflexivity.
Qed.

Lemma search_without_filters_witness :
  search_patients_by_name clinic (Some ""%string) None = get_all_patients clinic.
Proof.
  apply (search_without_filters clinic (Some ""%string) None); auto.
Defined.

Lemma no_http_lower o : no_http (py_lower o).
Proof. intros c d. destruct o; discriminate. Qed.

#[local] Hint Resolve no_http_lower : no_http.

(** List-all and the search never raise an [HTTPException]: whatever the
    document and the queries, they answer 200 or, on a document they cannot
    read, 500; a search that matches nobody is not a 404. *)
Theorem listing_never_http patient_data firstName lastName :
  no_http (get_all_patients patient_data) /\
  no_http (search_patients_by_name patient_data firstName lastName) /\
  (fst (http_response (get_all_patients patient_data)) = 200%Z \/
   fst (http_response (get_all_patients patient_data)) = 500%Z) /\
  (fst (http_response (search_patients_by_name patient_data firstName lastName)) = 200%Z \/
   fst (http_response (search_patients_by_name patient_data firstName lastName)) = 500%Z).
Proof.
  assert (Hstatus : forall r, no_http r ->
            fst (http_response r) = 200%Z \/ fst (http_response r) = 500%Z).
  { intros [body|[| |c d]] H; simpl; auto. destruct (H c d eq_refl). }
  assert (Hall : no_http (get_all_patients patient_data))
    by (unfold get_all_patients; repeat no_http_step).
  assert (Hsearch : no_http (search_patients_by_name patient_data firstName lastName))
    by (unfold search_patients_by_name; repeat no_http_step).
  auto.
Qed.

(** A document without a [patients] key behaves as an empty dataset:
    List-all and every search answer count 0 and the empty list, and every
    lookup by identifier is a 404. *)
Theorem missing_patients_key d :
  dict_lookup "patients" d = None ->
  get_all_patients (VDict d)
  = Ok (VDict [("success", VBool true); ("count", VInt 0); ("patients", VList [])]) /\
  (forall firstName lastName,
     search_patients_by_name (VDict d) firstName lastName
     = Ok (VDict [("success", VBool true); ("count", VInt 0); ("patients", VList [])])) /\
  (forall patient_id,
     get_patient_by_id (VDict d) patient_id
     = Raise (HTTPException 404 ("Patient with ID " ++ patient_id ++ " not found")%string)) /\
  (forall patient_id a,
     run (VDict d) patient_id a
     = Raise (HTTPException 404 ("Patient with ID " ++ patient_id ++ " not found")%string)).
Proof.
  intros H.
  assert (Hfind : forall patient_id, find_patient_by_id (VDict d) patient_id = Ok VNone)
    by (intros; unfold find_patient_by_id, py_get; rewrite H; reflexivity).
  repeat split.
  - unfold get_all_patients, py_get. rewrite H. reflexivity.
  - intros firstName lastName. unfold search_patients_by_name, py_get. rewrite H.
    cbn [bind]. destruct (given firstName), (given lastName); reflexivity.
  - intros patient_id. unfold get_patient_by_id. rewrite Hfind. reflexivity.
  - intros patient_id a. destruct a; simpl;
      unfold get_patient_appointments, get_patient_test_results,
        get_patient_medical_history, get_patient_insurance,
        get_patient_care_providers, get_patient_procedures;
      rewrite Hfind; reflexivity.
Qed.

Lemma missing_patients_key_witness :
  get_patient_by_id (VDict [("version", VInt 1)]) "P1"
  = Raise (HTTPException 404 "Patient with ID P1 not found").
Proof.
  exact (proj1 (proj2 (proj2 (missing_patients_key [("version", VInt 1)] eq_refl)))
               "P1"%string).
Defined.

Lemma contains_ci_occurs q s :
  contains_ci q s = true <->
  (forall f, q = Some f -> occurs_in (lower f) (lower s)).
Proof.
  destruct q as [f|]; simpl.
  - rewrite str_in_occurs. split; [intros H g [= <-]; exact H|auto].
  - split; [discriminate|reflexivity].
Qed.

(** Which records the search returns, without reference to the filter that
    computes them: a record of the dataset is returned exactly when the
    lowercase form of each given query occurs, as a contiguous run, in the
    lowercase form of the corresponding name. *)
Theorem search_patients_by_name_membership patient_data ps firstName lastName :
  dataset patient_data = Some ps ->
  forallb names_ok ps = true ->
  exists returned,
    patients_returned (search_patients_by_name patient_data firstName lastName)
    = Some returned /\
    forall p,
      In p returned <->
      In p ps /\
      (forall f, firstName = Some f ->
                 occurs_in (lower f) (lower (name "firstName" p))) /\
      (forall l, lastName = Some l ->
                 occurs_in (lower l) (lower (name "lastName" p))).
Proof.
  intros Hds Hok. exists (SearchByName_spec ps firstName lastName).
  rewrite (search_patients_by_name_filter _ _ _ _ Hds Hok).
  split; [reflexivity|]. intros p. unfold SearchByName_spec.
  rewrite filter_In, andb_true_iff, !contains_ci_occurs. reflexivity.
Qed.

Lemma search_patients_by_name_membership_witness :
  exists returned,
    patients_returned (search_patients_by_name clinic (Some "NN"%string) None)
    = Some returned /\
    forall p,
      In p returned <->
      In p [anna; diana] /\
      (forall f, Some "NN"%string = Some f ->
                 occurs_in (lower f) (lower (name "firstName" p))) /\
      (forall l, @None string = Some l ->
                 occurs_in (lower l) (lower (name "lastName" p))).
Proof.
  exact (search_patients_by_name_membership clinic [anna; diana]
           (Some "NN"%string) None eq_refl eq_refl).
Defined.

Lemma filter_impl_sublist {A} (f g : A -> bool) (l : list A) :
  (forall x, f x = true -> g x = true) ->
  sublist (List.filter f l) (List.filter g l).
Proof.
  intros H. induction l as [|x l IH]; simpl; [constructor|].
  destruct (f x) eqn:E.
  - rewrite (H x E). apply sublist_skip, IH.
  - destruct (g x); [apply sublist_cons|]; exact IH.
Qed.

(** A longer query narrows the search: when each query of one search
    occurs, letter case apart, in the corresponding query of another, every
    record the second returns is returned by the first, in the same order. *)
Theorem search_patients_by_name_narrowing patient_data ps f1 f2 l1 l2 :
  dataset patient_data = Some ps ->
  forallb names_ok ps = true ->
  occurs_in (lower f1) (lower f2) ->
  occurs_in (lower l1) (lower l2) ->
  exists wide narrow,
    patients_returned (search_patients_by_name patient_data (Some f1) (Some l1))
    = Some wide /\
    patients_returned (search_patients_by_name patient_data (Some f2) (Some l2))
    = Some narrow /\
    sublist narrow wide.
Proof.
  intros Hds Hok Hf Hl.
  exists (SearchByName_spec ps (Some f1) (Some l1)),
         (SearchByName_spec ps (Some f2) (Some l2)).
  rewrite !(search_patients_by_name_filter _ _ _ _ Hds Hok).
  repeat split. apply filter_impl_sublist. intros p.
  rewrite !andb_true_iff. simpl. rewrite !str_in_occurs.
  intros [H1 H2]. split.
  - exact (occurs_in_trans _ _ _ Hf H1).
  - exact (occurs_in_trans _ _ _ Hl H2).
Qed.

Lemma search_patients_by_name_narrowing_witness :
  exists wide narrow,
    patients_returned (search_patients_by_name clinic (Some "AN"%string) (Some ""%string))
    = Some wide /\
    patients_returned (search_patients_by_name clinic (Some "Diana"%string) (Some "Pr"%string))
    = Some narrow /\
    sublist narrow wide.
Proof.
  apply (search_patients_by_name_narrowing clinic [anna; diana]
           "AN"%string "Diana"%string ""%string "Pr"%string eq_refl eq_refl).
  - exists "di"%string, "a"%string. reflexivity.
  - exists ""%string, "pr"%string. reflexivity.
Defined.

(** ** More on the lookup *)

Lemma find_loop_skip patient_id before rest :
  forallb is_dict before = true ->
  forallb (fun q => negb (has_id patient_id q)) before = true ->
  find_loop patient_id (before ++ rest) = find_loop patient_id rest.
Proof.
  induction before as [|q before IH]; [reflexivity|].
  cbn [forallb app]. intros [Hq Hd]%andb_prop [Hn Hb]%andb_prop.
  rewrite find_loop_cons by exact Hq.
  apply negb_true_iff in Hn. rewrite Hn. auto.
Qed.

(** The scan stops at the first match: what follows it in [patients] is
    never looked at, so even entries that are not records do no harm
    there. *)
Theorem lookup_ignores_rest d before p after patient_id :
  dict_lookup "patients" d = Some (VList (before ++ p :: after)) ->
  forallb is_dict before = true ->
  forallb (fun q => negb (has_id patient_id q)) before = true ->
  has_id patient_id p = true ->
  find_patient_by_id (VDict d) patient_id = Ok p /\
  get_patient_by_id (VDict d) patient_id
  = Ok (VDict [("success", VBool true); ("patient", p)]).
Proof.
  intros Hd Hdict Hno Hp.
  assert (Hfind : find_patient_by_id (VDict d) patient_id = Ok p).
  { unfold find_patient_by_id, py_get. rewrite Hd. cbn [bind py_iter].
    rewrite (find_loop_skip _ _ _ Hdict Hno).
    rewrite find_loop_cons by exact (has_id_is_dict _ _ Hp).
    rewrite Hp. reflexivity. }
  split; [exact Hfind|].
  unfold get_patient_by_id. rewrite Hfind. cbn [bind].
  rewrite (has_id_truthy _ _ Hp). reflexivity.
Qed.

Lemma lookup_ignores_rest_witness :
  get_patient_by_id (VDict [("patients", VList [anna; VInt 7; VNone])]) "P1"
  = Ok (VDict [("success", VBool true); ("patient", anna)]).
Proof.
  exact (proj2 (lookup_ignores_rest [("patients", VList [anna; VInt 7; VNone])]
                  [] anna [VInt 7; VNone] "P1" eq_refl eq_refl eq_refl eq_refl)).
Defined.

(** An entry of [patients] that is not a record, met before any match,
    ends the lookup with [AttributeError]: Get-by-ID and every accessor
    answer 500 for that identifier, whether or not a later record
    carries it. *)
Theorem lookup_breaks_on_non_record d before q after patient_id a :
  dict_lookup "patients" d = Some (VList (before ++ q :: after)) ->
  forallb is_dict before = true ->
  forallb (fun r => negb (has_id patient_id r)) before = true ->
  is_dict q = false ->
  get_patient_by_id (VDict d) patient_id = Raise AttributeError /\
  run (VDict d) patient_id a = Raise AttributeError /\
  fst (http_response (run (VDict d) patient_id a)) = 500%Z.
Proof.
  intros Hd Hdict Hno Hq.
  assert (Hfind : find_patient_by_id (VDict d) patient_id = Raise AttributeError).
  { unfold find_patient_by_id, py_get. rewrite Hd. cbn [bind py_iter].
    rewrite (find_loop_skip _ _ _ Hdict Hno).
    destruct q; try discriminate Hq; reflexivity. }
  assert (Hrun : run (VDict d) patient_id a = Raise AttributeError).
  { destruct a; simpl;
      unfold get_patient_appointments, get_patient_test_results,
        get_patient_medical_history, get_patient_insurance,
        get_patient_care_providers, get_patient_procedures;
      rewrite Hfind; reflexivity. }
  split; [unfold get_patient_by_id; rewrite Hfind; reflexivity|].
  split; [exact Hrun|]. rewrite Hrun. reflexivity.
Qed.

Lemma lookup_breaks_on_non_record_witness :
  get_patient_by_id (VDict [("patients", VList [anna; VInt 7; diana])]) "P2"
  = Raise AttributeError.
Proof.
  exact (proj1 (lookup_breaks_on_non_record
                  [("patients", VList [anna; VInt 7; diana])]
                  [anna] (VInt 7) [diana] "P2" MedicalHistory
                  eq_refl eq_refl eq_refl eq_refl)).
Defined.

(** On a dataset, the Get-by-ID handler returns a response exactly when
    some record carries the identifier, and raises its 404 exception exactly
    when none does; the record it returns is an element of the dataset, the
    one List-all shows, and carries the identifier. *)
Theorem get_patient_by_id_outcomes patient_data ps patient_id :
  dataset patient_data = Some ps ->
  (forall body,
     get_patient_by_id patient_data patient_id = Ok body ->
     exists p, body = VDict [("success", VBool true); ("patient", p)] /\
               In p ps /\
               field "patientId" p = Some (VStr patient_id)) /\
  ((exists q, In q ps /\ field "patientId" q = Some (VStr patient_id)) <->
   exists body, get_patient_by_id patient_data patient_id = Ok body) /\
  ((forall q, In q ps -> field "patientId" q <> Some (VStr patient_id)) <->
   get_patient_by_id patient_data patient_id
   = Raise (HTTPException 404 ("Patient with ID " ++ patient_id ++ " not found")%string)).
Proof.
  intros Hds. unfold get_patient_by_id.
  rewrite (find_patient_by_id_dataset _ _ _ Hds).
  apply dataset_get in Hds as [_ Hd].
  destruct (find_loop_cases patient_id ps Hd) as [[H1 H2]|(p & H1 & H2)];
    rewrite H1; cbn [bind].
  - assert (Hno : forall q, In q ps -> field "patientId" q <> Some (VStr patient_id)).
    { intros q Hq Hf. rewrite forallb_forall in H2. specialize (H2 q Hq).
      apply has_id_field in Hf. rewrite Hf in H2. discriminate. }
    simpl. split; [discriminate|]. split.
    + split; [|intros [body H]; discriminate H].
      intros (q & Hq & Hf). destruct (Hno q Hq Hf).
    + split; [reflexivity|intros _; exact Hno].
  - pose proof (first_with_id_In _ _ _ H2) as Hin.
    destruct H2 as (? & ? & _ & _ & Hp).
    rewrite (has_id_truthy _ _ Hp). simpl.
    apply has_id_field in Hp. split.
    + intros body [= <-]. exists p. auto.
    + split.
      * split; [eexists; reflexivity|]. intros _. exists p. auto.
      * split; [|discriminate]. intros Hno. destruct (Hno p Hin Hp).
Qed.

Lemma get_patient_by_id_outcomes_witness :
  (exists q, In q [anna; diana; anna_again] /\
             field "patientId" q = Some (VStr "P1")) <->
  exists body, get_patient_by_id clinic_dup "P1" = Ok body.
Proof.
  exact (proj1 (proj2 (get_patient_by_id_outcomes clinic_dup
                         [anna; diana; anna_again] "P1" eq_refl))).
Defined.

(** ** More on start-up *)

(** Start-up has three outcomes.  It fails only with an exception, of
    [open] or of [json.load], that is neither of the two caught ones.  When
    it prints nothing, the document is what [json.load] returned, whatever
    its shape.  When it prints, it prints one line and the document is the
    empty dataset. *)
Theorem load_patient_data_outcomes (json_load : string -> outcome value) opened :
  (forall e,
     load_patient_data json_load opened = Throws e ->
     (exists name, e = OtherError name) /\
     (opened = Throws e \/
      exists text, opened = Returns text /\ json_load text = Throws e)) /\
  (forall v,
     load_patient_data json_load opened = Returns (v, []) ->
     exists text, opened = Returns text /\ json_load text = Returns v) /\
  (forall v line more,
     load_patient_data json_load opened = Returns (v, line :: more) ->
     v = VDict [("patients", VList [])] /\ more = []).
Proof.
  unfold load_patient_data.
  destruct opened as [text|e0];
    [destruct (json_load text) as [v0|e0] eqn:E|];
    try destruct e0 as [|msg|name]; cbn; (split; [|split]).
  all: try (intros e H; first
         [ discriminate H
         | inversion H; subst; split;
           [ eexists; reflexivity
           | first [ left; reflexivity
                   | right; eexists; split; [reflexivity|exact E] ] ] ]).
  all: try (intros v H; first
         [ discriminate H
         | inversion H; subst; eexists; split; [reflexivity|exact E] ]).
  all: intros v line more H; first
         [ discriminate H | inversion H; subst; split; reflexivity ].
Qed.

(** A file that holds valid JSON other than an object is accepted at
    start-up without a diagnostic, and then List-all, the search, Get-by-ID
    and every accessor end with [AttributeError], a 500. *)
Theorem non_object_document (json_load : string -> outcome value) text v :
  json_load text = Returns v ->
  is_dict v = false ->
  load_patient_data json_load (Returns text) = Returns (v, []) /\
  get_all_patients v = Raise AttributeError /\
  (forall firstName lastName,
     search_patients_by_name v firstName lastName = Raise AttributeError) /\
  (forall patient_id, get_patient_by_id v patient_id = Raise AttributeError) /\
  (forall patient_id a, run v patient_id a = Raise AttributeError) /\
  http_response (get_all_patients v) = (500%Z, VStr "Internal Server Error").
Proof.
  intros Hjson Hv.
  assert (Hget : py_get v "patients" (VList []) = Raise AttributeError)
    by (destruct v; try discriminate Hv; reflexivity).
  assert (Hfind : forall patient_id, find_patient_by_id v patient_id = Raise AttributeError)
    by (intros; unfold find_patient_by_id; rewrite Hget; reflexivity).
  assert (Hall : get_all_patients v = Raise AttributeError)
    by (unfold get_all_patients; rewrite Hget; reflexivity).
  split; [unfold load_patient_data; rewrite Hjson; reflexivity|].
  split; [exact Hall|]. split; [|split; [|split]].
  - intros firstName lastName. unfold search_patients_by_name.
    rewrite Hget. reflexivity.
  - intros patient_id. unfold get_patient_by_id. rewrite Hfind. reflexivity.
  - intros patient_id a. destruct a; simpl;
      unfold get_patient_appointments, get_patient_test_results,
        get_patient_medical_history, get_patient_insurance,
        get_patient_care_providers, get_patient_procedures;
      rewrite Hfind; reflexivity.
  - rewrite Hall. reflexivity.
Qed.

Lemma non_object_document_witness :
  load_patient_data (fun _ => Returns (VList [anna])) (Returns "[...]"%string)
  = Returns (VList [anna], []) /\
  get_all_patients (VList [anna]) = Raise AttributeError.
Proof.
  destruct (non_object_document (fun _ => Returns (VList [anna])) "[...]"%string
              (VList [anna]) eq_refl eq_refl) as (H1 & H2 & _).
  split; assumption.
Defined.

(** ** More on the sub-resources *)

(** A field that the record has is returned as it is, whatever its type,
    by the four accessors without a filter. *)
Theorem present_field_returned patient_data ps patient_id p :
  dataset patient_data = Some ps ->
  first_with_id patient_id ps p ->
  (forall v, field "medicalHistory" p = Some v ->
     get_patient_medical_history patient_data patient_id
     = Ok (VDict [("success", VBool true); ("medicalHistory", v)])) /\
  (forall v, field "insurance" p = Some v ->
     get_patient_insurance patient_data patient_id
     = Ok (VDict [("success", VBool true); ("insurance", v)])) /\
  (forall v, field "careProviders" p = Some v ->
     get_patient_care_providers patient_data patient_id
     = Ok (VDict [("success", VBool true); ("careProviders", v)])) /\
  (forall v, field "procedures" p = Some v ->
     get_patient_procedures patient_data patient_id
     = Ok (VDict [("success", VBool true); ("procedures", v)])).
Proof.
  intros Hds Hfirst.
  destruct (find_patient_by_id_resolved _ _ _ _ Hds Hfirst) as [Hfind Htruthy].
  pose proof (first_with_id_is_dict _ _ _ Hfirst) as Hdict.
  unfold get_patient_medical_history, get_patient_insurance,
    get_patient_care_providers, get_patient_procedures.
  rewrite Hfind. cbn [bind]. rewrite Htruthy. cbn [negb].
  rewrite !(py_get_field p _ _ Hdict).
  repeat split; intros v ->; reflexivity.
Qed.

Lemma present_field_returned_witness :
  get_patient_procedures
    (VDict [("patients", VList [VDict [("patientId", VStr "P7");
                                       ("procedures", VNone)]])]) "P7"
  = Ok (VDict [("success", VBool true); ("procedures", VNone)]).
Proof.
  pose (r := VDict [("patientId", VStr "P7"); ("procedures", VNone)]).
  assert (H : first_with_id "P7" [r] r)
    by (exists [], []; repeat split; reflexivity).
  exact (proj2 (proj2 (proj2 (present_field_returned
           (VDict [("patients", VList [r])]) [r] "P7" r eq_refl H)))
           VNone eq_refl).
Defined.

(** When the [appointments] of the record is not a mapping, the request
    without a recognized [type] still returns it as it is, and the request
    for a bucket ends with [AttributeError]. *)
Theorem appointments_not_a_mapping patient_data ps patient_id p v :
  dataset patient_data = Some ps ->
  first_with_id patient_id ps p ->
  field "appointments" p = Some v ->
  is_dict v = false ->
  (forall type,
     In type ["upcoming"; "recent"; "past"]%string ->
     get_patient_appointments patient_data patient_id (Some type)
     = Raise AttributeError) /\
  get_patient_appointments patient_data patient_id None
  = Ok (VDict [("success", VBool true); ("appointments", v)]).
Proof.
  intros Hds Hfirst Hv Hnd.
  destruct (find_patient_by_id_resolved _ _ _ _ Hds Hfirst) as [Hfind Htruthy].
  pose proof (first_with_id_is_dict _ _ _ Hfirst) as Hdict.
  unfold get_patient_appointments. rewrite Hfind. cbn [bind].
  rewrite Htruthy. cbn [negb].
  rewrite (py_get_field p _ _ Hdict), Hv. cbn [bind]. split; [|reflexivity].
  intros type Hin. simpl in Hin.
  destruct Hin as [<-|[<-|[<-|[]]]]; simpl;
    destruct v; try discriminate Hnd; reflexivity.
Qed.

Lemma appointments_not_a_mapping_witness :
  get_patient_appointments
    (VDict [("patients", VList [VDict [("patientId", VStr "P7");
                                       ("appointments", VList [])]])])
    "P7" (Some "past"%string)
  = Raise AttributeError.
Proof.
  pose (r := VDict [("patientId", VStr "P7"); ("appointments", VList [])]).
  assert (H : first_with_id "P7" [r] r)
    by (exists [], []; repeat split; reflexivity).
  refine (proj1 (appointments_not_a_mapping
            (VDict [("patients", VList [r])]) [r] "P7" r (VList [])
            eq_refl H eq_refl eq_refl) "past"%string _).
  simpl. auto.
Defined.

Lemma comprehension_raises cond before x after e :
  (forall y, In y before -> exists b, cond y = Ok b) ->
  cond x = Raise e ->
  comprehension cond (before ++ x :: after) = Raise e.
Proof.
  intros Hb Hx. induction before as [|y before IH]; simpl.
  - rewrite Hx. reflexivity.
  - destruct (Hb y (or_introl eq_refl)) as [b ->]. simpl.
    rewrite IH by (intros z Hz; apply Hb; right; exact Hz). reflexivity.
Qed.

(** When [testResults] is a list, the request without a filter returns it
    whole with its length as [count], whatever its entries are; with a
    non-empty [testType], an entry that is not an object ends the request
    with [AttributeError]. *)
Theorem test_results_entries patient_data ps patient_id p tests :
  dataset patient_data = Some ps ->
  first_with_id patient_id ps p ->
  field "testResults" p = Some (VList tests) ->
  (forall testType, testType = None \/ testType = Some ""%string ->
     get_patient_test_results patient_data patient_id testType
     = Ok (VDict [("success", VBool true);
                  ("count", VInt (Z.of_nat (length tests)));
                  ("testResults", VList tests)])) /\
  (forall t, t <> ""%string -> forallb is_dict tests = false ->
     get_patient_test_results patient_data patient_id (Some t)
     = Raise AttributeError).
Proof.
  intros Hds Hfirst Htests.
  destruct (find_patient_by_id_resolved _ _ _ _ Hds Hfirst) as [Hfind Htruthy].
  pose proof (first_with_id_is_dict _ _ _ Hfirst) as Hdict.
  unfold get_patient_test_results. rewrite Hfind. cbn [bind].
  rewrite Htruthy. cbn [negb].
  rewrite (py_get_field p _ _ Hdict), Htests. cbn [bind]. split.
  - intros testType [->| ->]; reflexivity.
  - intros t Ht Hbad. unfold given. apply String.eqb_neq in Ht. rewrite Ht.
    cbn [py_iter bind].
    assert (Hsplit : exists before x after,
               tests = before ++ x :: after /\
               forallb is_dict before = true /\ is_dict x = false).
    { clear -Hbad. induction tests as [|y tests IH]; [discriminate|].
      cbn [forallb] in Hbad. destruct (is_dict y) eqn:E.
      - destruct (IH Hbad) as (b & x & a & -> & Hb & Hx).
        exists (y :: b), x, a. repeat split; [|exact Hx].
        cbn [forallb]. rewrite E, Hb. reflexivity.
      - exists [], y, tests. repeat split. exact E. }
    destruct Hsplit as (before & x & after & -> & Hb & Hx).
    rewrite (comprehension_raises _ before x after AttributeError); [reflexivity| |].
    + intros y Hy. rewrite forallb_forall in Hb.
      rewrite (test_cond_ok t y (Hb y Hy)). eexists. reflexivity.
    + destruct x; try discriminate Hx; reflexivity.
Qed.

Lemma test_results_entries_witness :
  get_patient_test_results
    (VDict [("patients",
             VList [VDict [("patientId", VStr "P7");
                           ("testResults",
                            VList [VDict [("testType", VStr "Laboratory")];
                                   VStr "pending"])]])])
    "P7" (Some "Laboratory"%string)
  = Raise AttributeError.
Proof.
  pose (tests := [VDict [("testType", VStr "Laboratory")]; VStr "pending"]).
  pose (r := VDict [("patientId", VStr "P7"); ("testResults", VList tests)]).
  assert (H : first_with_id "P7" [r] r)
    by (exists [], []; repeat split; reflexivity).
  refine (proj2 (test_results_entries
            (VDict [("patients", VList [r])]) [r] "P7" r tests
            eq_refl H eq_refl) "Laboratory"%string _ eq_refl).
  discriminate.
Defined.

Lemma comprehension_kept cond items kept :
  comprehension cond items = Ok kept ->
  forall x, In x kept -> cond x = Ok true.
Proof.
  revert kept. induction items as [|y items IH]; simpl; intros kept H x Hx.
  - injection H as <-. destruct Hx.
  - destruct (cond y) as [b|] eqn:Ey; [|discriminate]. simpl in H.
    destruct (comprehension cond items) as [k|]; [|discriminate]. simpl in H.
    injection H as <-. destruct b.
    + destruct Hx as [<-|Hx]; [exact Ey|exact (IH k eq_refl x Hx)].
    + exact (IH k eq_refl x Hx).
Qed.

(** Under a non-empty [testType] the handler never returns an entry of
    another type: on any document, whenever the request succeeds, every
    returned entry is an object whose [testType] is the filter, and [count]
    is the number of returned entries. *)
Theorem test_results_filter_sound patient_data patient_id t body :
  t <> ""%string ->
  get_patient_test_results patient_data patient_id (Some t) = Ok body ->
  exists kept,
    body = VDict [("success", VBool true);
                  ("count", VInt (Z.of_nat (length kept)));
                  ("testResults", VList kept)] /\
    forall test, In test kept -> field "testType" test = Some (VStr t).
Proof.
  intros Ht. unfold get_patient_test_results, given.
  apply String.eqb_neq in Ht. rewrite Ht.
  destruct (find_patient_by_id patient_data patient_id) as [p|]; [|discriminate].
  cbn [bind]. destruct (negb (truthy p)); [discriminate|].
  destruct (py_get p "testResults" (VList [])) as [v|]; [|discriminate].
  cbn [bind]. destruct (py_iter v) as [items|]; [|discriminate].
  cbn [bind].
  destruct (comprehension _ items) as [kept|] eqn:E; [|discriminate].
  simpl. intros [= <-]. exists kept. split; [reflexivity|].
  intros test Hin. apply (comprehension_kept _ _ _ E) in Hin.
  destruct test as [| | | | | |d]; try discriminate Hin. simpl in Hin |- *.
  destruct (dict_lookup "testType" d) as [[| | | |s| |]|]; try discriminate Hin.
  simpl in Hin. injection Hin as Hin. apply String.eqb_eq in Hin. congruence.
Qed.

Lemma test_results_filter_sound_witness :
  exists kept,
    VDict [("success", VBool true); ("count", VInt 1);
           ("testResults",
            VList [VDict [("testType", VStr "Radiology"); ("name", VStr "X-ray")]])]
    = VDict [("success", VBool true);
             ("count", VInt (Z.of_nat (length kept)));
             ("testResults", VList kept)] /\
    forall test, In test kept -> field "testType" test = Some (VStr "Radiology").
Proof.
  apply (test_results_filter_sound clinic "P2" "Radiology"%string).
  - discriminate.
  - reflexivity.
Defined.

Lemma comprehension_attribute_error cond items :
  (forall y, In y items -> cond y = Raise AttributeError \/ exists b, cond y = Ok b) ->
  (exists x, In x items /\ cond x = Raise AttributeError) ->
  comprehension cond items = Raise AttributeError.
Proof.
  induction items as [|y items IH]; intros Hall (x & Hx & Hraise).
  - destruct Hx.
  - simpl. destruct (Hall y (or_introl eq_refl)) as [->|[b Hb]]; [reflexivity|].
    rewrite Hb. simpl. rewrite IH; [reflexivity| |].
    + intros z Hz. apply Hall. right. exact Hz.
    + destruct Hx as [<-|Hx]; [congruence|]. exists x. auto.
Qed.

Lemma name_cond_cases key q p :
  is_dict p = true ->
  (name_of key p = None ->
   (info <- py_get p "personalInformation" (VDict []) ;;
    n <- py_get info key (VStr "") ;;
    n <- py_lower n ;;
    Ok (str_in (lower q) n)) = Raise AttributeError) /\
  ((info <- py_get p "personalInformation" (VDict []) ;;
    n <- py_get info key (VStr "") ;;
    n <- py_lower n ;;
    Ok (str_in (lower q) n)) = Raise AttributeError \/
   exists b,
     (info <- py_get p "personalInformation" (VDict []) ;;
      n <- py_get info key (VStr "") ;;
      n <- py_lower n ;;
      Ok (str_in (lower q) n)) = Ok b).
Proof.
  destruct p as [| | | | | |d]; try discriminate. intros _.
  unfold name_of, field, py_get.
  destruct (dict_lookup "personalInformation" d) as [[| | | | | |info]|]; simpl;
    try (split; [reflexivity|left; reflexivity]);
    try (split; [discriminate|right; eexists; reflexivity]).
  destruct (dict_lookup key info) as [[| | | | | |]|]; simpl;
    try (split; [reflexivity|left; reflexivity]);
    try (split; [discriminate|right; eexists; reflexivity]).
Qed.

(** A record whose name is not text breaks the search on that name: when
    some record of the dataset has a [firstName] that is not a str (a JSON
    null, a number), or a [personalInformation] that is not an object, every
    search with a non-empty [firstName] ends with [AttributeError]; the same
    holds for [lastName] when no [firstName] filter runs before it. *)
Theorem search_breaks_on_untyped_name patient_data ps p :
  dataset patient_data = Some ps ->
  In p ps ->
  (name_of "firstName" p = None ->
   forall f lastName, f <> ""%string ->
     search_patients_by_name patient_data (Some f) lastName = Raise AttributeError) /\
  (name_of "lastName" p = None ->
   forall firstName l, firstName = None \/ firstName = Some ""%string ->
     l <> ""%string ->
     search_patients_by_name patient_data firstName (Some l) = Raise AttributeError).
Proof.
  intros Hds Hin. apply dataset_get in Hds as [Hget Hd].
  rewrite forallb_forall in Hd. split.
  - intros Hname f lastName Hf. unfold search_patients_by_name.
    rewrite Hget. cbn [bind]. unfold given at 1.
    apply String.eqb_neq in Hf. rewrite Hf. cbn [py_iter bind].
    rewrite comprehension_attribute_error; [reflexivity| |].
    + intros y Hy. apply (name_cond_cases "firstName" f y (Hd y Hy)).
    + exists p. split; [exact Hin|].
      apply (name_cond_cases "firstName" f p (Hd p Hin)). exact Hname.
  - intros Hname firstName l Hfirst Hl. unfold search_patients_by_name.
    rewrite Hget. cbn [bind].
    assert (given firstName = None) as ->
      by (destruct Hfirst as [->| ->]; reflexivity).
    cbn [bind]. unfold given.
    apply String.eqb_neq in Hl. rewrite Hl. cbn [py_iter bind].
    rewrite comprehension_attribute_error; [reflexivity| |].
    + intros y Hy. apply (name_cond_cases "lastName" l y (Hd y Hy)).
    + exists p. split; [exact Hin|].
      apply (name_cond_cases "lastName" l p (Hd p Hin)). exact Hname.
Qed.

Lemma search_breaks_on_untyped_name_witness :
  search_patients_by_name
    (VDict [("patients",
             VList [anna;
                    VDict [("patientId", VStr "P3");
                           ("personalInformation",
                            VDict [("firstName", VNone)])]])])
    (Some "z"%string) None
  = Raise AttributeError.
Proof.
  pose (r := VDict [("patientId", VStr "P3");
                    ("personalInformation", VDict [("firstName", VNone)])]).
  refine (proj1 (search_breaks_on_untyped_name
                   (VDict [("patients", VList [anna; r])]) [anna; r] r
                   eq_refl _) eq_refl "z"%string None _).
  - simpl. auto.
  - discriminate.
Defined.
